(** * AI-Agent: tool executor, argument normaliser, memory store and
    dispatch-failure classification

    A shallow embedding of [src/agent/tools.py] and [src/agent/agent.py],
    with the message splitter and the user states of [src/bot/utils].

    Python text is a [string] holding the UTF-8 bytes of the text, values
    passed by the orchestration layer are [PyVal], and every function that
    touches the file system, a subprocess or the network is a function on
    an explicit [World], with the outside given by an [Env] record of
    oracles.

    What the embedding leaves to the libraries:
    - the logger: its calls are left out, but an expression that a log
      line evaluates and that can raise is kept;
    - the Unicode tables: the case and the escape of an ASCII character
      are computed, and what [lower], [upper] and [repr] make of the
      characters beyond ASCII is an oracle of the text and the position;
    - the JSON codec: a file written by [json.dump] is the document
      itself ([JsonDoc]), read back unchanged by [json.load]; parsing a
      text is an oracle;
    - floats: a float is named by its [repr], and [format] with a
      precision is an oracle;
    - the file system: a file or a directory is known by the spelling of
      its path (no normalisation, no links, no current directory), paths
      follow [posixpath], and text is written as on a host whose line
      separator is the line feed;
    - the search, geocoding and chat clients: a call is recorded in the
      world and answered by an oracle;
    - exceptions are those below [Exception]. *)

From stdpp Require Import base strings list gmap.
From Stdlib Require Import Ascii ZArith Lia DecimalString.

Open Scope string_scope.

(** ** Python values *)

(** The values a tool call can carry and [json.load] can return.  A float
    is named by its [repr]; a dict is an association list with string
    keys, looked up from the front. *)
#[warnings="-register-all"]
Inductive PyVal :=
| VNone
| VBool (b : bool)
| VInt (z : Z)
| VFloat (r : string)
| VStr (s : string)
| VList (l : list PyVal)
| VDict (d : list (string * PyVal)).

(** ** Exceptions and results *)

Inductive ExnClass :=
| IndexError | KeyError | TypeError | AttributeError | ValueError
| UnboundLocalError | ValidationError | JSONDecodeError
| RequestException | TimeoutExpired | FileNotFoundError | IsADirectoryError
| PermissionError | OSError | RuntimeError.

(** An exception of class [Exception]: its class and the text [str(e)]. *)
Record Exn := mkExn { exn_class : ExnClass; exn_text : string }.

(** What a call does: return, raise, or never come back. *)
Inductive Res (A : Type) :=
| Ok (a : A)
| Raise (e : Exn)
| Hang.
Arguments Ok {A} a.
Arguments Raise {A} e.
Arguments Hang {A}.

(** Computations over a state [S] that may raise. *)
Definition M (S A : Type) : Type := S -> Res A * S.

Definition m_ret {S A} (a : A) : M S A := fun s => (Ok a, s).
Definition m_raise {S A} (e : Exn) : M S A := fun s => (Raise e, s).
Definition m_bind {S A B} (k : A -> M S B) (m : M S A) : M S B :=
  fun s =>
    match m s with
    | (Ok a, s') => k a s'
    | (Raise e, s') => (Raise e, s')
    | (Hang, s') => (Hang, s')
    end.

#[global] Instance M_ret {S} : MRet (M S) := fun A => @m_ret S A.
#[global] Instance M_bind {S} : MBind (M S) := fun A B => @m_bind S A B.

(** [try: body  except Exception as e: handler e] *)
Definition try_except {S A} (body : M S A) (handler : Exn -> M S A) : M S A :=
  fun s =>
    match body s with
    | (Raise e, s') => handler e s'
    | r => r
    end.

(** Lift a result that needs no state. *)
Definition lift {S A} (r : Res A) : M S A := fun s => (r, s).
Definition of_sum {S A} (r : Exn + A) : M S A :=
  fun s => (match r with inl e => Raise e | inr a => Ok a end, s).
Definition modify {S} (f : S -> S) : M S unit := fun s => (Ok tt, f s).

#[global] Instance Res_ret : MRet Res := fun A a => Ok a.
#[global] Instance Res_bind : MBind Res := fun A B k r =>
  match r with
  | Ok a => k a
  | Raise e => Raise e
  | Hang => Hang
  end.

(** ** The world outside the process *)

Inductive MsgClass := HumanMessage | AIMessage | SystemMessage.
Record Message := mkMessage { msg_class : MsgClass; content : string }.

(** A file holds bytes ([Text], the UTF-8 bytes of a text among them), or
    the document [json.dump] wrote for a value; [json.load] of the latter
    gives the value back. *)
Inductive FileData := Text (s : string) | JsonDoc (v : PyVal).

Record HttpCall := mkCall {
  call_method : string;
  call_url : string;
  call_headers : PyVal;
  call_json : PyVal;
  call_timeout : option Z          (* seconds; [None]: no [timeout=] given *)
}.

(** A call to one of the clients that are not [requests]. *)
Inductive ServiceCall :=
| Search (query : string) (max_results : Z)      (* [ddgs.text(query, max_results=..)] *)
| Geocode (query : string) (timeout : Z)         (* [geolocator.geocode(query, timeout=..)] *)
| Chat (model : string) (prompt : string).       (* [ChatOpenAI(model=..).invoke(prompt)] *)

Record World := mkWorld {
  files : gmap string FileData;
  directories : gset string;
  made_dirs : list string;         (* paths handed to [os.makedirs] *)
  spawned : list string;           (* commands handed to [subprocess.run] *)
  http_log : list HttpCall;        (* requests sent with [requests], oldest first *)
  service_log : list ServiceCall   (* calls to the other clients, oldest first *)
}.

Record Response := mkResponse {
  status_code : Z;
  reason : string;
  response_url : string;           (* [response.url], the URL as it was sent *)
  text : string;
  json_body : Exn + PyVal          (* what [response.json()] does *)
}.

(** What the far end of a request does: answer, fail (in the client or on
    the wire), or stay silent for ever. *)
Inductive ServerBehaviour := Answers (r : Response) | Fails (e : Exn) | Silent.

Inductive ProcOutcome :=
| Completed (returncode : Z) (stdout stderr : string)
| Expired
| LaunchError (e : Exn).

Record Location := mkLocation { latitude : string; longitude : string }.
Inductive GeoOutcome := Located (l : Location) | NoMatch | GeoError (e : Exn).

(** The collaborators the code calls but does not define. *)
Record Env := mkEnv {
  (* The interpreter's Unicode tables: what [lower], [upper] and [repr]
     make of the run of characters beyond ASCII that starts at a byte
     position of a text. *)
  lower_table : string -> nat -> string;
  upper_table : string -> nat -> string;
  repr_table : string -> nat -> string;
  json_loads : string -> Exn + PyVal;
  format_spec : string -> PyVal -> Exn + string;      (* [format(v, spec)] *)
  server : HttpCall -> ServerBehaviour;
  shell : string -> gmap string FileData * gset string
          -> ProcOutcome * (gmap string FileData * gset string);
  open_error : World -> string -> option Exn;          (* [open(path, 'w')] *)
  read_error : World -> string -> option Exn;          (* [open(path, 'r')] and [read] *)
  makedirs_error : World -> string -> option Exn;
  nominatim_error : option Exn;                        (* [Nominatim(...)] *)
  geocode : nat -> string -> GeoOutcome;               (* by attempt *)
  ddgs_error : option Exn;                             (* [DDGS()] *)
  ddgs_text : string -> Exn + list PyVal;
  executor_invoke :
    string -> list Message -> World -> (Exn + PyVal) * list Message * World;
  chat_error : option Exn;                             (* [ChatOpenAI(...)] *)
  summary_llm : string -> Exn + string;
  message_content : PyVal -> Exn + string;    (* content a message object keeps *)
  qrcode_available : bool;                             (* [QRCODE_AVAILABLE] *)
  getenv : string -> option string;                    (* [os.getenv] *)
  qr_image : string -> Exn + string;          (* the image made for a text, as bytes *)
  save_error : World -> string -> option Exn           (* [img.save(path)] *)
}.

(** ** Python [str] operations *)

Module PyStr.

Definition chr (n : nat) : ascii := ascii_of_nat n.
Definition of_codes (l : list nat) : string :=
  fold_right (fun n s => String (chr n) s) EmptyString l.

Definition dquote : ascii := chr 34.
Definition backslash : ascii := chr 92.

(** [s.startswith(p)] *)
Definition startswith (s p : string) : bool := String.prefix p s.

(** [needle in s] *)
Fixpoint contains (needle s : string) : bool :=
  String.prefix needle s ||
  match s with
  | EmptyString => false
  | String _ s' => contains needle s'
  end.

(** A byte below 128 is an ASCII character; the bytes of every other
    character are all above 127. *)
Definition is_ascii (c : ascii) : bool := (nat_of_ascii c <? 128)%nat.

(** [s] rewritten character by character: an ASCII character becomes
    [f c], and a run of characters beyond ASCII becomes what [table]
    gives for the run that starts at that byte of the whole text (the
    table sees the whole text, so what it gives may depend on what stands
    around the run).  [pos] is the position in [whole] of the head of
    [s]; [in_run] tells that the byte before it belongs to a run. *)
Fixpoint map_text (f : ascii -> string) (table : string -> nat -> string)
    (whole : string) (pos : nat) (in_run : bool) (s : string) : string :=
  match s with
  | EmptyString => EmptyString
  | String c s' =>
      if is_ascii c then f c +:+ map_text f table whole (S pos) false s'
      else (if in_run then EmptyString else table whole pos)
           +:+ map_text f table whole (S pos) true s'
  end.

(** [s.lower()] and [s.upper()] *)
Definition lower_char (c : ascii) : ascii :=
  let n := nat_of_ascii c in
  if (65 <=? n)%nat && (n <=? 90)%nat then chr (n + 32) else c.
Definition upper_char (c : ascii) : ascii :=
  let n := nat_of_ascii c in
  if (97 <=? n)%nat && (n <=? 122)%nat then chr (n - 32) else c.

Definition lower (env : Env) (s : string) : string :=
  map_text (fun c => String (lower_char c) EmptyString) (lower_table env) s 0 false s.
Definition upper (env : Env) (s : string) : string :=
  map_text (fun c => String (upper_char c) EmptyString) (upper_table env) s 0 false s.

(** The characters [str.isspace] accepts, each by its UTF-8 encoding:
    U+0009..000D, U+001C..0020, U+0085, U+00A0, U+1680, U+2000..200A,
    U+2028, U+2029, U+202F, U+205F, U+3000. *)
Definition whitespace : list string :=
  map of_codes
    ([[9]; [10]; [11]; [12]; [13]; [28]; [29]; [30]; [31]; [32];
      [194; 133]; [194; 160]; [225; 154; 128]]
     ++ map (fun k => [226; 128; 128 + k]) (seq 0 11)
     ++ [[226; 128; 168]; [226; 128; 169]; [226; 128; 175];
         [226; 129; 159]; [227; 128; 128]])%list.

(** Drop from the front of [s] every leading occurrence of one of
    [pats]; [skip] counts the bytes of the current match still to drop. *)
Fixpoint drop_leading (pats : list string) (skip : nat) (s : string) : string :=
  match s with
  | EmptyString => EmptyString
  | String _ s' =>
      match skip with
      | S k => drop_leading pats k s'
      | O =>
          match find (fun p => String.prefix p s) pats with
          | Some p => drop_leading pats (String.length p - 1) s'
          | None => s
          end
      end
  end.

Definition lstrip_of (pats : list string) (s : string) : string :=
  drop_leading pats 0 s.
Definition rstrip_of (pats : list string) (s : string) : string :=
  String.rev (drop_leading (map String.rev pats) 0 (String.rev s)).

(** [s.strip()] *)
Definition strip (s : string) : string :=
  rstrip_of whitespace (lstrip_of whitespace s).

(** [s.split(sep)] for a one-character separator. *)
Fixpoint split_go (sep : ascii) (cur : string) (s : string) : list string :=
  match s with
  | EmptyString => [String.rev cur]
  | String c s' =>
      if Ascii.eqb c sep then String.rev cur :: split_go sep EmptyString s'
      else split_go sep (String c cur) s'
  end.
Definition split (sep : ascii) (s : string) : list string :=
  split_go sep EmptyString s.

(** [s.split(sep, 1)] *)
Fixpoint split1_go (sep : ascii) (cur : string) (s : string) : list string :=
  match s with
  | EmptyString => [String.rev cur]
  | String c s' =>
      if Ascii.eqb c sep then [String.rev cur; s']
      else split1_go sep (String c cur) s'
  end.
Definition split1 (sep : ascii) (s : string) : list string :=
  split1_go sep EmptyString s.

(** [s.replace(old, new)] for a non-empty [old]: occurrences are taken
    from the left and do not overlap. *)
Fixpoint replace_go (old new : string) (skip : nat) (s : string) : string :=
  match s with
  | EmptyString => EmptyString
  | String c s' =>
      match skip with
      | S k => replace_go old new k s'
      | O =>
          if String.prefix old s
          then new +:+ replace_go old new (String.length old - 1) s'
          else String c (replace_go old new 0 s')
      end
  end.
Definition replace (old new s : string) : string := replace_go old new 0 s.

(** [sep.join(parts)] *)
Definition join (sep : string) (parts : list string) : string :=
  String.concat sep parts.

(** [len(s)]: the number of code points, that is of bytes that are not
    UTF-8 continuation bytes. *)
Fixpoint len (s : string) : nat :=
  match s with
  | EmptyString => 0
  | String c s' =>
      let n := nat_of_ascii c in
      (if (128 <=? n)%nat && (n <? 192)%nat then 0 else 1) + len s'
  end.

(** [str(z)] for an integer. *)
Definition of_Z (z : Z) : string := NilZero.string_of_int (Z.to_int z).
Definition of_nat (n : nat) : string := of_Z (Z.of_nat n).

Definition is_empty (s : string) : bool :=
  match s with EmptyString => true | _ => false end.

(** [repr(s)]: single-quoted, or double-quoted when the text holds a
    single quote and no double quote.  Of the ASCII characters the
    backslash, the quote in use, newline, carriage return and tab are
    escaped and the other control characters are written [\xhh]; what
    becomes of the characters beyond ASCII (the printable ones are
    copied, the others escaped) is left to the table. *)
Definition hex_digit (n : nat) : ascii :=
  if (n <? 10)%nat then chr (48 + n) else chr (87 + n).

Definition repr_char (q : ascii) (c : ascii) : string :=
  let n := nat_of_ascii c in
  if Ascii.eqb c backslash then String backslash (String backslash EmptyString)
  else if Ascii.eqb c q then String backslash (String q EmptyString)
  else if (n =? 10)%nat then String backslash "n"
  else if (n =? 13)%nat then String backslash "r"
  else if (n =? 9)%nat then String backslash "t"
  else if (n <? 32)%nat || (n =? 127)%nat
       then String backslash (String "x"
              (String (hex_digit (n / 16)) (String (hex_digit (n mod 16)) EmptyString)))
  else String c EmptyString.

Definition repr (env : Env) (s : string) : string :=
  let q := if contains "'" s && negb (contains (String dquote EmptyString) s)
           then dquote else "'"%char in
  String q (map_text (repr_char q) (repr_table env) s 0 false s +:+ String q EmptyString).

(** [s[:n]]: the first [n] code points. *)
Definition is_continuation (c : ascii) : bool :=
  let k := nat_of_ascii c in (128 <=? k)%nat && (k <? 192)%nat.
Fixpoint take (n : nat) (s : string) : string :=
  match s with
  | EmptyString => EmptyString
  | String c s' =>
      if is_continuation c then String c (take n s')
      else match n with
           | O => EmptyString
           | S k => String c (take k s')
           end
  end.

(** [sorted(l)] for strings: code-point order is byte order in UTF-8. *)
Fixpoint insert_sorted (x : string) (l : list string) : list string :=
  match l with
  | [] => [x]
  | y :: l' => if String.leb x y then x :: l else y :: insert_sorted x l'
  end.
Definition sorted (l : list string) : list string :=
  fold_right insert_sorted [] l.

(** The code points of [s], each as a string. *)
Fixpoint chars_go (cur : string) (s : string) : list string :=
  match s with
  | EmptyString => if is_empty cur then [] else [String.rev cur]
  | String c s' =>
      if is_continuation c || is_empty cur then chars_go (String c cur) s'
      else String.rev cur :: chars_go (String c EmptyString) s'
  end.
Definition chars (s : string) : list string := chars_go EmptyString s.

(** What a text-mode [read] makes of the line ends: a carriage return,
    alone or followed by a line feed, becomes a line feed. *)
Fixpoint universal_newlines (s : string) : string :=
  match s with
  | EmptyString => EmptyString
  | String c s' =>
      if Ascii.eqb c (chr 13) then
        String (chr 10)
          match s' with
          | EmptyString => EmptyString
          | String c' s'' =>
              if Ascii.eqb c' (chr 10) then universal_newlines s''
              else universal_newlines s'
          end
      else String c (universal_newlines s')
  end.

End PyStr.

Module Py.

Fixpoint repr (env : Env) (v : PyVal) : string :=
  match v with
  | VNone => "None"
  | VBool b => if b then "True" else "False"
  | VInt z => PyStr.of_Z z
  | VFloat r => r
  | VStr s => PyStr.repr env s
  | VList l => "[" +:+ PyStr.join ", " (map (repr env) l) +:+ "]"
  | VDict d =>
      "{" +:+ PyStr.join ", "
                (map (fun kv : string * PyVal =>
                        let (k, x) := kv in PyStr.repr env k +:+ ": " +:+ repr env x) d)
          +:+ "}"
  end.

(** [str(v)] *)
Definition str (env : Env) (v : PyVal) : string :=
  match v with
  | VStr s => s
  | _ => repr env v
  end.

(** [isinstance(v, dict)] *)
Definition is_dict (v : PyVal) : bool :=
  match v with VDict _ => true | _ => false end.

(** The name [type(v).__name__] that error messages quote. *)
Definition type_name (v : PyVal) : string :=
  match v with
  | VNone => "NoneType"
  | VBool _ => "bool"
  | VInt _ => "int"
  | VFloat _ => "float"
  | VStr _ => "str"
  | VList _ => "list"
  | VDict _ => "dict"
  end.

Fixpoint assoc {A : Type} (k : string) (d : list (string * A)) : option A :=
  match d with
  | [] => None
  | (k', x) :: d' => if String.eqb k k' then Some x else assoc k d'
  end.

End Py.

Module PyOps.

(** [l[0]] *)
Definition first {A} (l : list A) : Res A :=
  match l with
  | x :: _ => Ok x
  | [] => Raise (mkExn IndexError "list index out of range")
  end.

(** [len(v)] *)
Definition len (v : PyVal) : Res nat :=
  match v with
  | VStr s => Ok (PyStr.len s)
  | VList l => Ok (length l)
  | VDict d => Ok (length d)
  | _ => Raise (mkExn TypeError
                  ("object of type '" +:+ Py.type_name v +:+ "' has no len()"))
  end.

Definition no_attribute (v : PyVal) (name : string) : Exn :=
  mkExn AttributeError
    ("'" +:+ Py.type_name v +:+ "' object has no attribute '" +:+ name +:+ "'").

(** [v.get(key, default)] *)
Definition get (v : PyVal) (key : string) (default : PyVal) : Res PyVal :=
  match v with
  | VDict d => Ok (match Py.assoc key d with Some x => x | None => default end)
  | _ => Raise (no_attribute v "get")
  end.

(** [key in v] *)
Definition contains (v : PyVal) (key : string) : Res bool :=
  match v with
  | VDict d => Ok (bool_decide (is_Some (Py.assoc key d)))
  | VList l =>
      Ok (existsb (fun x => match x with VStr s => String.eqb s key | _ => false end) l)
  | VStr s => Ok (PyStr.contains key s)
  | _ => Raise (mkExn TypeError
                  ("argument of type '" +:+ Py.type_name v +:+ "' is not iterable"))
  end.

(** [v[key]] for a string [key] *)
Definition getitem (env : Env) (v : PyVal) (key : string) : Res PyVal :=
  match v with
  | VDict d =>
      match Py.assoc key d with
      | Some x => Ok x
      | None => Raise (mkExn KeyError (PyStr.repr env key))
      end
  | VList _ =>
      Raise (mkExn TypeError "list indices must be integers or slices, not str")
  | VStr _ =>
      Raise (mkExn TypeError "string indices must be integers, not 'str'")
  | _ => Raise (mkExn TypeError
                  ("'" +:+ Py.type_name v +:+ "' object is not subscriptable"))
  end.

End PyOps.

Definition nl : string := String (PyStr.chr 10) EmptyString.

Module Os.

(** [os.path.dirname] of [posixpath]. *)
Fixpoint last_slash (s : string) (pos : nat) (found : option nat) : option nat :=
  match s with
  | EmptyString => found
  | String c s' =>
      last_slash s' (S pos) (if Ascii.eqb c "/" then Some pos else found)
  end.

Fixpoint take_bytes (n : nat) (s : string) : string :=
  match n, s with
  | S k, String c s' => String c (take_bytes k s')
  | _, _ => EmptyString
  end.

Definition all_slashes (s : string) : bool :=
  PyStr.is_empty (PyStr.lstrip_of ["/"] s).

Definition dirname (p : string) : string :=
  match last_slash p 0 None with
  | None => EmptyString
  | Some i =>
      let head := take_bytes (S i) p in
      if all_slashes head then head else PyStr.rstrip_of ["/"] head
  end.

(** [os.path.join(a, b)] of [posixpath]. *)
Definition join (a b : string) : string :=
  if PyStr.startswith b "/" then b
  else if PyStr.is_empty a || String.prefix "/" (String.rev a) then a +:+ b
  else a +:+ "/" +:+ b.

(** The directories above [path]: what stands before each of its
    slashes, the first character apart; [seen] is what was read, last
    byte first. *)
Fixpoint parents_go (seen : string) (s : string) : list string :=
  match s with
  | EmptyString => []
  | String c s' =>
      (if Ascii.eqb c "/" && negb (PyStr.is_empty seen) then [String.rev seen] else [])
      ++ parents_go (String c seen) s'
  end.
Definition parents (path : string) : list string := parents_go EmptyString path.

End Os.

(** ** Effects on the world *)

Definition set_fs (fs : gmap string FileData) (dirs : gset string) (w : World) : World :=
  mkWorld fs dirs (made_dirs w) (spawned w) (http_log w) (service_log w).
Definition log_requests (cs : list HttpCall) (w : World) : World :=
  mkWorld (files w) (directories w) (made_dirs w) (spawned w) (http_log w ++ cs)
    (service_log w).
Definition log_request (c : HttpCall) (w : World) : World := log_requests [c] w.
Definition log_services (cs : list ServiceCall) (w : World) : World :=
  mkWorld (files w) (directories w) (made_dirs w) (spawned w) (http_log w)
    (service_log w ++ cs).
Definition log_service (c : ServiceCall) (w : World) : World := log_services [c] w.

Section Effects.
Context (env : Env).

(** [requests.<method>(url, headers=.., json=.., timeout=..)] *)
Definition requests_call (c : HttpCall) : M World Response :=
  fun w =>
    let w' := log_request c w in
    match server env c with
    | Answers r => (Ok r, w')
    | Fails e => (Raise e, w')
    | Silent =>
        match call_timeout c with
        | Some t =>
            (Raise (mkExn RequestException
                      ("Read timed out. (read timeout=" +:+ PyStr.of_Z t +:+ ")")), w')
        | None => (Hang, w')
        end
    end.

(** [response.raise_for_status()] *)
Definition raise_for_status (r : Response) : Res unit :=
  let code := status_code r in
  let kind :=
    if (400 <=? code)%Z && (code <? 500)%Z then Some "Client Error"
    else if (500 <=? code)%Z && (code <? 600)%Z then Some "Server Error"
    else None in
  match kind with
  | Some k =>
      Raise (mkExn RequestException
               (PyStr.of_Z code +:+ " " +:+ k +:+ ": " +:+ reason r
                +:+ " for url: " +:+ response_url r))
  | None => Ok tt
  end.

(** A call to a client other than [requests]: it is recorded, and the
    oracle's answer comes back or is raised. *)
Definition service_call {A} (c : ServiceCall) (answer : Exn + A) : M World A :=
  fun w => (match answer with inl e => Raise e | inr a => Ok a end, log_service c w).

(** [subprocess.run(command, shell=True, ..., timeout=30)] *)
Definition subprocess_run (command : string) : M World ProcOutcome :=
  fun w =>
    let '(out, (fs', dirs')) := shell env command (files w, directories w) in
    (Ok out,
     mkWorld fs' dirs' (made_dirs w) (spawned w ++ [command]) (http_log w) (service_log w)).

(** [os.makedirs(path, exist_ok=True)]: the directory and those above
    it. *)
Definition makedirs (path : string) : M World unit :=
  fun w =>
    match makedirs_error env w path with
    | Some e => (Raise e, w)
    | None =>
        (Ok tt,
         mkWorld (files w) (directories w ∪ {[path]} ∪ list_to_set (Os.parents path))
           (made_dirs w ++ [path]) (spawned w) (http_log w) (service_log w))
    end.

(** [with open(path, 'w', encoding='utf-8') as f: f.write(content)], and
    the same with [json.dump(doc, f)]. *)
Definition write_data (path : string) (data : FileData) : M World unit :=
  fun w =>
    match open_error env w path with
    | Some e => (Raise e, w)
    | None => (Ok tt, set_fs (<[path := data]> (files w)) (directories w) w)
    end.

(** [img.save(path)], with the [os.path.getsize(path)] the log line takes
    of the file just saved. *)
Definition save_image (path : string) (image : string) : M World unit :=
  fun w =>
    match save_error env w path with
    | Some e => (Raise e, w)
    | None => (Ok tt, set_fs (<[path := Text image]> (files w)) (directories w) w)
    end.

End Effects.

(** [os.path.exists(path)] *)
Definition is_directory (w : World) (path : string) : bool :=
  bool_decide (path ∈ directories w).
Definition path_exists (w : World) (path : string) : bool :=
  negb (PyStr.is_empty path)
  && (bool_decide (is_Some (files w !! path)) || is_directory w path).

(** ** [tools.py] *)

Definition not_dict (v : PyVal) : bool := negb (Py.is_dict v).

(** [_normalize_input(value)] *)
Definition _normalize_input (env : Env) (value : PyVal) : string :=
  match value with
  | VList l =>
      let real_args := List.filter not_dict l in
      if (length real_args =? 0)%nat then
        if (length l =? 1)%nat then Py.str env (hd VNone l)
        else PyStr.join " " (map (Py.str env) l)
      else if (length real_args =? 1)%nat then Py.str env (hd VNone real_args)
      else PyStr.join " " (map (Py.str env) real_args)
  | _ => Py.str env value
  end.

(** [_extract_tool_args]: positional and keyword arguments without the
    dicts. *)
Definition _extract_tool_args (args : list PyVal) (kwargs : list (string * PyVal))
  : list PyVal * list (string * PyVal) :=
  (List.filter not_dict args,
   List.filter (fun kv : string * PyVal => not_dict (snd kv)) kwargs).

(** The line every tool starts with:
    [real_args[0] if real_args else kwargs.get(name, args[0] if args else "")] *)
Definition tool_argument (name : string) (args : list PyVal)
    (kwargs : list (string * PyVal)) : PyVal :=
  let (real_args, _) := _extract_tool_args args kwargs in
  match real_args with
  | x :: _ => x
  | [] =>
      let default := match args with a :: _ => a | [] => VStr EmptyString end in
      match Py.assoc name kwargs with
      | Some v => v
      | None => default
      end
  end.

(** The list handling shared by [write_file_impl] and [generate_qr_code]:
    the first two entries that are not dicts, joined by a bar. *)
Definition bar_joined (env : Env) (x : PyVal) : string :=
  match x with
  | VList l =>
      let filtered := List.filter not_dict l in
      match filtered with
      | a :: b :: _ => Py.str env a +:+ "|" +:+ Py.str env b
      | [a] => Py.str env a
      | [] => match l with v :: _ => Py.str env v | [] => EmptyString end
      end
  | _ => Py.str env x
  end.

(** The list handling of [get_crypto_price] (lines 572-580): no filtering,
    and [coin_and_currency[0]] in the last branch whatever the length. *)
Definition crypto_argument (env : Env) (x : PyVal) : Res string :=
  match x with
  | VList l =>
      if (length l =? 1)%nat then Ok (Py.str env (hd VNone l))
      else if (length l =? 2)%nat
           then Ok (Py.str env (hd VNone l) +:+ "," +:+ Py.str env (hd VNone (tl l)))
      else v ← PyOps.first l; Ok (Py.str env v)
  | _ => Ok (Py.str env x)
  end.

(** The parse of [get_currency_rate] (lines 634-641): base and target. *)
Definition parse_currency_pair (env : Env) (currency_pair : string) : string * string :=
  let parts :=
    PyStr.split "/"
      (PyStr.replace " " "/" (PyStr.replace "TO" "/" (PyStr.replace "to" "/" currency_pair))) in
  if (2 <=? length parts)%nat
  then (PyStr.upper env (PyStr.strip (hd EmptyString parts)),
        PyStr.upper env (PyStr.strip (hd EmptyString (tl parts))))
  else ("USD", PyStr.upper env (PyStr.strip (hd EmptyString parts))).

Definition dangerous_commands : list string :=
  ["rm"; "del"; "format"; "mkfs"; "dd"; "shutdown"; "reboot"].

Definition weather_descriptions : list (Z * string) :=
  [(0, "Ясно"); (1, "Преимущественно ясно"); (2, "Переменная облачность");
   (3, "Пасмурно"); (45, "Туман"); (48, "Изморозь"); (51, "Легкая морось");
   (53, "Умеренная морось"); (55, "Сильная морось"); (61, "Легкий дождь");
   (63, "Умеренный дождь"); (65, "Сильный дождь"); (71, "Легкий снег");
   (73, "Умеренный снег"); (75, "Сильный снег"); (80, "Легкий ливень");
   (81, "Умеренный ливень"); (82, "Сильный ливень"); (85, "Снегопад");
   (86, "Сильный снегопад"); (95, "Гроза"); (96, "Гроза с градом");
   (99, "Сильная гроза с градом")]%Z.

(** [table.get(v, default)] for the integer-keyed table above: a bool or a
    float equal to a key finds it, a list or dict cannot be hashed. *)
Definition key_matches (v : PyVal) (k : Z) : bool :=
  match v with
  | VInt z => (z =? k)%Z
  | VBool b => ((if b then 1 else 0) =? k)%Z
  | VFloat r =>
      String.eqb r (PyStr.of_Z k +:+ ".0") || ((k =? 0)%Z && String.eqb r "-0.0")
  | _ => false
  end.

Definition table_get (table : list (Z * string)) (v : PyVal) (default : string)
  : Res string :=
  match v with
  | VList _ | VDict _ =>
      Raise (mkExn TypeError ("unhashable type: '" +:+ Py.type_name v +:+ "'"))
  | _ =>
      Ok (match List.find (fun kv : Z * string => key_matches v (fst kv)) table with
          | Some kv => snd kv
          | None => default
          end)
  end.

(** A local variable of a function body: not yet assigned, or bound. *)
Inductive Local (A : Type) := Unbound | Bound (a : A).
Arguments Unbound {A}.
Arguments Bound {A} a.

(** Run a computation on the world inside one that also carries locals. *)
Definition on_world {X A} (m : M World A) : M (World * X) A :=
  fun s =>
    let (r, w') := m (fst s) in (r, (w', snd s)).

Definition set_local {X} (x : X) : M (World * X) unit :=
  fun s => (Ok tt, (fst s, x)).

Definition with_local {X A} (init : X) (m : M (World * X) A) : M World A :=
  fun w => let (r, s) := m (w, init) in (r, fst s).
Definition get_local {X} : M (World * X) X := fun s => (Ok (snd s), s).

Section Tools.
Context (env : Env).
(** [os.name == 'nt'] *)
Context (nt : bool).
(** The text of the document [json.dump] wrote for a value. *)
Context (dumps : PyVal -> string).

(** *** [web_search] *)

Definition format_result (result : PyVal) : Res string :=
  title ← PyOps.get result "title" (VStr "N/A");
  href ← PyOps.get result "href" (VStr "N/A");
  body ← PyOps.get result "body" (VStr "N/A");
  Ok ("Заголовок: " +:+ Py.str env title +:+ nl +:+
      "URL: " +:+ Py.str env href +:+ nl +:+
      "Описание: " +:+ Py.str env body +:+ nl).

Fixpoint format_results (results : list PyVal) : Res (list string) :=
  match results with
  | [] => Ok []
  | r :: rs => s ← format_result r; ss ← format_results rs; Ok (s :: ss)
  end.

Definition web_search (args : list PyVal) (kwargs : list (string * PyVal))
  : M World string :=
  let query := _normalize_input env (tool_argument "query" args kwargs) in
  try_except
    (_ ← lift (match ddgs_error env with Some e => Raise e | None => Ok tt end);
     results ← service_call (Search query 5) (ddgs_text env query);
     match results with
     | [] => mret "Результаты поиска не найдены."
     | _ =>
         formatted_results ← lift (format_results results);
         mret (PyStr.join (nl +:+ "---" +:+ nl) formatted_results)
     end)
    (fun e => mret ("Ошибка при поиске: " +:+ exn_text e)).

(** *** [http_request] *)

(** [json.loads(text)] followed by the [len] the log line takes. *)
Definition loads_sized (text : string) : Res PyVal :=
  match json_loads env text with
  | inl e => Raise e
  | inr v => _ ← PyOps.len v; Ok v
  end.

Definition nonempty (o : option string) : option string :=
  match o with
  | Some s => if PyStr.is_empty s then None else Some s
  | None => None
  end.

Definition http_request (args : list PyVal) (kwargs : list (string * PyVal))
  : M World string :=
  let raw := tool_argument "request_str" args kwargs in
  let request_str :=
    match raw with
    | VList l => PyStr.join "|" (map (Py.str env) l)
    | _ => Py.str env raw
    end in
  try_except
    (let parts := PyStr.split "|" request_str in
     let method :=
       if (0 <? length parts)%nat
       then PyStr.upper env (PyStr.strip (nth 0 parts EmptyString)) else "GET" in
     let url :=
       if (1 <? length parts)%nat
       then PyStr.strip (nth 1 parts EmptyString) else EmptyString in
     let headers_str :=
       if (2 <? length parts)%nat
       then Some (PyStr.strip (nth 2 parts EmptyString)) else None in
     let data_str :=
       if (3 <? length parts)%nat
       then Some (PyStr.strip (nth 3 parts EmptyString)) else None in
     if PyStr.is_empty url
     then mret "Ошибка: URL обязателен. Формат: 'method|url|headers_json|data_json'"
     else
       let headers :=
         match nonempty headers_str with
         | Some h => match loads_sized h with Ok v => inr v | _ => inl h end
         | None => inr (VDict [])
         end in
       match headers with
       | inl h => mret ("Ошибка: Неверный формат JSON для headers: " +:+ h)
       | inr headers_dict =>
           let data :=
             match nonempty data_str with
             | Some d => match loads_sized d with Ok v => inr v | _ => inl d end
             | None => inr VNone
             end in
           match data with
           | inl d => mret ("Ошибка: Неверный формат JSON для data: " +:+ d)
           | inr data_dict =>
               let call :=
                 if String.eqb method "GET"
                 then Some (mkCall "GET" url headers_dict VNone None)
                 else if String.eqb method "POST"
                 then Some (mkCall "POST" url headers_dict data_dict None)
                 else if String.eqb method "PUT"
                 then Some (mkCall "PUT" url headers_dict data_dict None)
                 else if String.eqb method "DELETE"
                 then Some (mkCall "DELETE" url headers_dict VNone None)
                 else None in
               match call with
               | None => mret ("Неподдерживаемый метод: " +:+ method)
               | Some c =>
                   response ← requests_call env c;
                   _ ← lift (raise_for_status response);
                   mret ("Status: " +:+ PyStr.of_Z (status_code response) +:+ nl +:+
                         "Response: " +:+ PyStr.take 1000 (text response))
               end
           end
       end)
    (fun e => mret ("Ошибка HTTP запроса: " +:+ exn_text e)).

(** *** [read_file] *)

Definition file_text (data : FileData) : string :=
  match data with
  | Text s => s
  | JsonDoc v => dumps v
  end.

(** [with open(path, 'r', encoding='utf-8') as f: content = f.read()]: the
    text of the file with its line ends translated; a directory cannot be
    opened. *)
Definition open_read (path : string) : M World string :=
  fun w =>
    match files w !! path with
    | Some data =>
        match read_error env w path with
        | Some e => (Raise e, w)
        | None => (Ok (PyStr.universal_newlines (file_text data)), w)
        end
    | None =>
        if is_directory w path then
          if nt
          then (Raise (mkExn PermissionError
                         ("[Errno 13] Permission denied: " +:+ PyStr.repr env path)), w)
          else (Raise (mkExn IsADirectoryError
                         ("[Errno 21] Is a directory: " +:+ PyStr.repr env path)), w)
        else
          (Raise (mkExn FileNotFoundError
                    ("[Errno 2] No such file or directory: " +:+ PyStr.repr env path)), w)
    end.

Definition read_not_found (path : string) : string :=
  "Ошибка чтения файла: Файл '" +:+ path +:+ "' не найден. Проверьте правильность пути.".

Definition read_vanished (path : string) : string :=
  "Ошибка чтения файла: Файл '" +:+ path +:+
  "' не найден. Убедитесь, что путь указан правильно.".

Definition read_file (args : list PyVal) (kwargs : list (string * PyVal))
  : M World string :=
  fun w =>
    let (real_args, _) := _extract_tool_args args kwargs in
    let raw :=
      match real_args with
      | x :: _ => x
      | [] =>
          match Py.assoc "file_path" kwargs with
          | Some v => v
          | None => match args with a :: _ => a | [] => VStr EmptyString end
          end
      end in
    let original_path := _normalize_input env raw in
    let file_path :=
      if PyStr.startswith original_path "/" then
        if nt then PyStr.lstrip_of ["/"] original_path
        else if negb (path_exists w original_path) && (1 <? PyStr.len original_path)%nat
        then
          let relative_path := PyStr.lstrip_of ["/"] original_path in
          if path_exists w relative_path then relative_path else original_path
        else original_path
      else original_path in
    let target : string + string :=
      if negb (path_exists w file_path) then
        if PyStr.startswith file_path "/" then
          let alt_path := PyStr.lstrip_of ["/"] file_path in
          if path_exists w alt_path then inr alt_path
          else inl (read_not_found original_path)
        else inl (read_not_found file_path)
      else inr file_path in
    match target with
    | inl message => (Ok message, w)
    | inr path =>
        try_except (open_read path)
          (fun e =>
             match exn_class e with
             | FileNotFoundError => mret (read_vanished path)
             | _ => mret ("Ошибка чтения файла: " +:+ exn_text e)
             end) w
    end.

(** *** [write_file] *)

Definition write_file_impl (file_path_and_content : PyVal) : M World string :=
  let s := bar_joined env file_path_and_content in
  try_except
    (let parts := PyStr.split1 "|" s in
     let file_path :=
       if PyStr.contains "|" s then PyStr.strip (nth 0 parts EmptyString)
       else PyStr.strip s in
     let content :=
       if PyStr.contains "|" s
       then (if (1 <? length parts)%nat
             then PyStr.strip (nth 1 parts EmptyString) else EmptyString)
       else EmptyString in
     if PyStr.is_empty file_path
     then mret "Ошибка: Не указан путь к файлу"
     else
       let dir_path :=
         if PyStr.is_empty (Os.dirname file_path) then "." else Os.dirname file_path in
       _ ← (if String.eqb dir_path "." then mret tt else makedirs env dir_path);
       _ ← write_data env file_path (Text content);
       mret ("Файл " +:+ file_path +:+ " успешно записан (" +:+
             PyStr.of_nat (PyStr.len content) +:+ " символов)."))
    (fun e => mret ("Ошибка записи файла: " +:+ exn_text e)).

Definition write_file_wrapper (args : list PyVal) (kwargs : list (string * PyVal))
  : M World string :=
  let (real_args, _) := _extract_tool_args args kwargs in
  let file_path_and_content :=
    match real_args with
    | x :: _ => x
    | [] =>
        match args with
        | a :: _ =>
            match List.filter not_dict args with
            | x :: _ => x
            | [] => a
            end
        | [] =>
            match Py.assoc "file_path_and_content" kwargs with
            | Some v => v
            | None => VStr EmptyString
            end
        end
    end in
  write_file_impl file_path_and_content.

Definition write_file (file_path_and_content : PyVal) : M World string :=
  write_file_wrapper [file_path_and_content] [].

(** *** [execute_terminal] *)

Definition refusal (dangerous : string) : string :=
  "Ошибка: Команда '" +:+ dangerous +:+ "' запрещена из соображений безопасности.".

Definition execute_terminal (args : list PyVal) (kwargs : list (string * PyVal))
  : M World string :=
  let command := _normalize_input env (tool_argument "command" args kwargs) in
  let command_lower := PyStr.strip (PyStr.lower env command) in
  match List.find (PyStr.startswith command_lower) dangerous_commands with
  | Some dangerous => mret (refusal dangerous)
  | None =>
      try_except
        (result ← subprocess_run env command;
         match result with
         | Completed returncode stdout stderr =>
             let output := if PyStr.is_empty stdout then stderr else stdout in
             mret ("Exit code: " +:+ PyStr.of_Z returncode +:+ nl +:+
                   "Output:" +:+ nl +:+ output)
         | Expired => mret "Ошибка: Команда превысила лимит времени (30 секунд)."
         | LaunchError e => m_raise e
         end)
        (fun e => mret ("Ошибка выполнения команды: " +:+ exn_text e))
  end.

(** *** [get_weather] *)

Definition max_retries : nat := 3.

(** [geolocator.geocode(city, timeout=10)] *)
Definition geocode_call (attempt : nat) (city : string) : M World GeoOutcome :=
  fun w => (Ok (geocode env attempt city), log_service (Geocode city 10) w).

(** The retry loop of lines 459-469 over the attempts still to make;
    the local [location] is the state next to the world. *)
Fixpoint geocode_loop (city : string) (attempts : list nat)
  : M (World * Local (option Location)) unit :=
  match attempts with
  | [] => mret tt
  | attempt :: rest =>
      outcome ← on_world (geocode_call attempt city);
      match outcome with
      | Located l => set_local (Bound (Some l))
      | NoMatch => _ ← set_local (Bound None); geocode_loop city rest
      | GeoError e =>
          if (attempt =? max_retries - 1)%nat then m_raise e
          else geocode_loop city rest
      end
  end.

Definition city_not_found (city : string) : string :=
  "Город '" +:+ city +:+ "' не найден. Проверьте правильность написания названия города.".

Definition weather_body (city : string) : M (World * Local (option Location)) string :=
  _ ← lift (match nominatim_error env with Some e => Raise e | None => Ok tt end);
  _ ← set_local (Bound None);
  _ ← geocode_loop city (seq 0 max_retries);
  location ← get_local;
  match location with
  | Bound (Some loc) =>
      let url := "https://api.open-meteo.com/v1/forecast?latitude=" +:+ latitude loc +:+
                 "&longitude=" +:+ longitude loc +:+ "&current_weather=true" in
      let call := mkCall "GET" url VNone VNone (Some 10%Z) in
      response ← on_world (requests_call env call);
      _ ← lift (raise_for_status response);
      data ← of_sum (json_body response);
      present ← lift (PyOps.contains data "current_weather");
      if negb present then mret "Данные о погоде не получены."
      else
        weather ← lift (PyOps.getitem env data "current_weather");
        temperature ← lift (PyOps.get weather "temperature" (VStr "N/A"));
        windspeed ← lift (PyOps.get weather "windspeed" (VStr "N/A"));
        weathercode ← lift (PyOps.get weather "weathercode" (VStr "N/A"));
        condition ← lift (table_get weather_descriptions weathercode
                            ("Код: " +:+ Py.str env weathercode));
        mret ("Погода в " +:+ city +:+ ":" +:+ nl +:+
              "Температура: " +:+ Py.str env temperature +:+ "°C" +:+ nl +:+
              "Ветер: " +:+ Py.str env windspeed +:+ " км/ч" +:+ nl +:+
              "Условия: " +:+ condition)
  | _ => mret ("Город '" +:+ city +:+ "' не найден.")
  end.

Definition weather_handler (city : string) (e : Exn)
  : M (World * Local (option Location)) string :=
  let error_str := exn_text e in
  let low := PyStr.lower env error_str in
  if PyStr.contains "timeout" low || PyStr.contains "timed out" low
  then mret ("Ошибка: Сервис геокодирования недоступен (таймаут). " +:+
             "Попробуйте позже или укажите более точное название города.")
  else if PyStr.contains "GeocoderUnavailable" error_str || PyStr.contains "unavailable" low
  then mret ("Ошибка: Сервис геокодирования временно недоступен. " +:+ "Попробуйте позже.")
  else if PyStr.contains "not found" low then mret (city_not_found city)
  else
    location ← get_local;
    match location with
    | Unbound =>
        m_raise (mkExn UnboundLocalError
                   "cannot access local variable 'location' where it is not associated with a value")
    | Bound None => mret (city_not_found city)
    | Bound (Some _) => mret ("Ошибка получения погоды для " +:+ city +:+ ": " +:+ error_str)
    end.

Definition get_weather (args : list PyVal) (kwargs : list (string * PyVal))
  : M World string :=
  let city := _normalize_input env (tool_argument "city" args kwargs) in
  with_local Unbound (try_except (weather_body city) (weather_handler city)).

(** *** [get_crypto_price] *)

Definition get_crypto_price (args : list PyVal) (kwargs : list (string * PyVal))
  : M World string :=
  coin_and_currency ←
    lift (crypto_argument env (tool_argument "coin_and_currency" args kwargs));
  try_except
    (let parts := PyStr.split "," coin_and_currency in
     let coin := PyStr.lower env (PyStr.strip (nth 0 parts EmptyString)) in
     let currency :=
       if (1 <? length parts)%nat
       then PyStr.lower env (PyStr.strip (nth 1 parts EmptyString)) else "usd" in
     let url := "https://api.coingecko.com/api/v3/simple/price?ids=" +:+ coin +:+
                "&vs_currencies=" +:+ currency in
     let call := mkCall "GET" url VNone VNone None in
     response ← requests_call env call;
     _ ← lift (raise_for_status response);
     data ← of_sum (json_body response);
     present ← lift (PyOps.contains data coin);
     if negb present
     then mret ("Криптовалюта '" +:+ coin +:+ "' не найдена. Попробуйте: bitcoin, ethereum, etc.")
     else
       entry ← lift (PyOps.getitem env data coin);
       price ← lift (PyOps.get entry currency VNone);
       match price with
       | VNone => mret ("Валюта '" +:+ currency +:+ "' не поддерживается.")
       | _ =>
           shown ← of_sum (format_spec env ",.2f" price);
           mret ("Цена " +:+ PyStr.upper env coin +:+ ": " +:+ shown +:+ " " +:+
                 PyStr.upper env currency)
       end)
    (fun e => mret ("Ошибка получения курса: " +:+ exn_text e)).

(** *** [get_currency_rate] *)

(** [rates.keys()] *)
Definition keys (v : PyVal) : Res (list string) :=
  match v with
  | VDict d => Ok (map fst d)
  | _ => Raise (PyOps.no_attribute v "keys")
  end.

Definition get_currency_rate (args : list PyVal) (kwargs : list (string * PyVal))
  : M World string :=
  let currency_pair := _normalize_input env (tool_argument "currency_pair" args kwargs) in
  try_except
    (let (base_currency, target_currency) := parse_currency_pair env currency_pair in
     let url := "https://api.exchangerate-api.com/v4/latest/" +:+ base_currency in
     let call := mkCall "GET" url VNone VNone (Some 10%Z) in
     response ← requests_call env call;
     _ ← lift (raise_for_status response);
     data ← of_sum (json_body response);
     logged ← lift (PyOps.get data "rates" (VDict []));
     _ ← lift (PyOps.len logged);
     rates ← lift (PyOps.get data "rates" (VDict []));
     present ← lift (PyOps.contains rates target_currency);
     if negb present
     then
       names ← lift (keys rates);
       let available_currencies := PyStr.join ", " (List.firstn 20 (PyStr.sorted names)) in
       mret ("Валюта '" +:+ target_currency +:+ "' не найдена." +:+ nl +:+
             "Доступные валюты (примеры): " +:+ available_currencies +:+ "...")
     else
       rate ← lift (PyOps.getitem env rates target_currency);
       shown ← of_sum (format_spec env ".4f" rate);
       mret ("Курс " +:+ base_currency +:+ "/" +:+ target_currency +:+ ": " +:+ shown))
    (fun e =>
       match exn_class e with
       | RequestException => mret ("Ошибка получения курса валют: " +:+ exn_text e)
       | _ => mret ("Ошибка получения курса: " +:+ exn_text e)
       end).

(** *** [generate_qr_code] *)

Definition generate_qr_code (args : list PyVal) (kwargs : list (string * PyVal))
  : M World string :=
  if negb (qrcode_available env)
  then mret ("Ошибка: Библиотека qrcode не установлена. " +:+
             "Установите её командой: pip install qrcode[pil]")
  else
    let data_and_path := bar_joined env (tool_argument "data_and_path" args kwargs) in
    try_except
      (let parts := PyStr.split1 "|" data_and_path in
       let data :=
         if PyStr.contains "|" data_and_path then PyStr.strip (nth 0 parts EmptyString)
         else PyStr.strip data_and_path in
       let given_path :=
         if PyStr.contains "|" data_and_path
         then (if (1 <? length parts)%nat
               then PyStr.strip (nth 1 parts EmptyString) else "qr_code.png")
         else "qr_code.png" in
       if PyStr.is_empty data
       then mret "Ошибка: Не указаны данные для генерации QR-кода"
       else
         let fixed_path :=
           if PyStr.startswith given_path "/" && nt
           then PyStr.lstrip_of ["/"] given_path else given_path in
         let qr_dir :=
           match getenv env "QR_CODES_DIR" with
           | Some d => d
           | None => "temp_qr_codes"
           end in
         file_path ←
           (if PyStr.is_empty (Os.dirname fixed_path)
            then _ ← makedirs env qr_dir; mret (Os.join qr_dir fixed_path)
            else
              let dir_path := Os.dirname fixed_path in
              _ ← (if PyStr.is_empty dir_path then mret tt else makedirs env dir_path);
              mret fixed_path);
         image ← of_sum (qr_image env data);
         _ ← save_image env file_path image;
         mret ("✅ QR-код успешно создан для: " +:+ PyStr.take 100 data))
      (fun e => mret ("Ошибка генерации QR-кода: " +:+ exn_text e)).

(** *** [get_tools]: the registered tools, under the names they are
    registered with. *)
Definition get_tools
  : list (string * (list PyVal -> list (string * PyVal) -> M World string)) :=
  [("web_search", web_search);
   ("http_request", http_request);
   ("read_file", read_file);
   ("write_file", write_file_wrapper);
   ("execute_terminal", execute_terminal);
   ("get_weather", get_weather);
   ("get_crypto_price", get_crypto_price);
   ("generate_qr_code", generate_qr_code);
   ("get_currency_rate", get_currency_rate)].

End Tools.

(** ** [agent.py] *)

Module PyIter.

(** The items [for x in v] visits. *)
Definition items (v : PyVal) : Res (list PyVal) :=
  match v with
  | VList l => Ok l
  | VDict d => Ok (map (fun kv : string * PyVal => VStr (fst kv)) d)
  | VStr s => Ok (map VStr (PyStr.chars s))
  | _ => Raise (mkExn TypeError ("'" +:+ Py.type_name v +:+ "' object is not iterable"))
  end.

(** [v == text] *)
Definition is_text (v : PyVal) (text : string) : bool :=
  match v with
  | VStr s => String.eqb s text
  | _ => false
  end.

(** [l[-n:]] *)
Definition last_n {A} (n : nat) (l : list A) : list A :=
  List.skipn (length l - n) l.

(** [v[:n]] as far as it can raise. *)
Definition slice_check (v : PyVal) : Res unit :=
  match v with
  | VStr _ | VList _ => Ok tt
  | VDict _ => Raise (mkExn TypeError "unhashable type: 'slice'")
  | _ => Raise (mkExn TypeError
                  ("'" +:+ Py.type_name v +:+ "' object is not subscriptable"))
  end.

End PyIter.

Section Agent.
Context (env : Env).
Context (memory_file : string).

(** *** [_load_memory] *)

Definition add_message (cls : MsgClass) (c : PyVal) : M (list Message) unit :=
  s ← of_sum (message_content env c);
  modify (fun memory : list Message => (memory ++ [mkMessage cls s])%list).

(** The loop of lines 177-183; the state is [self.memory.chat_memory]. *)
Fixpoint load_messages (entries : list PyVal) : M (list Message) unit :=
  match entries with
  | [] => mret tt
  | msg :: rest =>
      type ← lift (PyOps.getitem env msg "type");
      _ ← (if PyIter.is_text type "human"
           then c ← lift (PyOps.getitem env msg "content"); add_message HumanMessage c
           else if PyIter.is_text type "ai"
           then c ← lift (PyOps.getitem env msg "content"); add_message AIMessage c
           else mret tt);
      load_messages rest
  end.

(** [json.load(f)] on a file open for reading as text. *)
Definition json_load (data : FileData) : Res PyVal :=
  match data with
  | JsonDoc v => Ok v
  | Text s =>
      match json_loads env (PyStr.universal_newlines s) with
      | inl e => Raise e
      | inr v => Ok v
      end
  end.

Definition load_body (w : World) (data : FileData) : M (list Message) unit :=
  _ ← lift (match read_error env w memory_file with Some e => Raise e | None => Ok tt end);
  memory_data ← lift (json_load data);
  logged ← lift (PyOps.get memory_data "messages" (VList []));
  _ ← lift (PyOps.len logged);
  present ← lift (PyOps.contains memory_data "messages");
  if negb present then mret tt
  else
    messages ← lift (PyOps.getitem env memory_data "messages");
    entries ← lift (PyIter.items messages);
    load_messages entries.

(** With no file at the path nothing is loaded; that holds for a path
    that is absent, and for one that names a directory, where [open]
    raises inside the [try] block and the [except] block only logs. *)
Definition _load_memory (w : World) (memory : list Message) : Res unit * list Message :=
  match files w !! memory_file with
  | Some data => try_except (load_body w data) (fun _ => mret tt) memory
  | None => (Ok tt, memory)
  end.

(** Start-up (lines 108-116): a fresh [ConversationBufferMemory], then
    [_load_memory]. *)
Definition startup_memory (w : World) : list Message := snd (_load_memory w []).

(** *** [_generate_summary] *)

Definition role_name (msg : Message) : string :=
  match msg_class msg with
  | HumanMessage => "Пользователь"
  | _ => "Агент"
  end.

Definition _generate_summary (memory : list Message) : M World string :=
  try_except
    (let recent_messages := PyIter.last_n 10 memory in
     match recent_messages with
     | [] => mret "История диалога пуста."
     | _ =>
         let summary_prompt :=
           fold_left (fun acc msg => acc +:+ role_name msg +:+ ": " +:+ content msg +:+ nl)
             recent_messages
             ("Кратко опиши последние сообщения в диалоге (максимум 3 предложения):" +:+ nl) in
         _ ← lift (match chat_error env with Some e => Raise e | None => Ok tt end);
         service_call (Chat "gpt-3.5-turbo" summary_prompt) (summary_llm env summary_prompt)
     end)
    (fun _ => mret "Не удалось сгенерировать резюме.").

(** *** [_save_memory] *)

Definition message_record (msg : Message) : PyVal :=
  let msg_type :=
    match msg_class msg with
    | HumanMessage => "human"
    | _ => "ai"
    end in
  VDict [("type", VStr msg_type); ("content", VStr (content msg))].

Definition memory_document (memory : list Message) (summary : string) : PyVal :=
  let messages := map message_record memory in
  VDict [("messages", VList messages); ("summary", VStr summary)].

Definition _save_memory (memory : list Message) : M World unit :=
  try_except
    (summary ← _generate_summary memory;
     write_data env memory_file (JsonDoc (memory_document memory summary)))
    (fun _ => mret tt).

(** *** [process] *)

Definition region_message : string :=
  "❌ Ошибка: OpenAI API недоступен в вашем регионе." +:+ nl +:+ nl +:+
  "Возможные решения:" +:+ nl +:+
  "1. Используйте VPN или прокси для доступа к OpenAI API" +:+ nl +:+
  "2. Используйте альтернативный API endpoint (если доступен)" +:+ nl +:+
  "3. Настройте прокси в переменных окружения:" +:+ nl +:+
  "   export HTTP_PROXY=http://your-proxy:port" +:+ nl +:+
  "   export HTTPS_PROXY=http://your-proxy:port" +:+ nl +:+ nl +:+
  "Подробнее см. файл REGION_FIX.md".

Definition auth_message : string :=
  "❌ Ошибка: Неверный API ключ OpenAI." +:+ nl +:+
  "Проверьте, что в файле .env указан правильный OPENAI_API_KEY".

Definition rate_limit_message : string :=
  "❌ Ошибка: Превышен лимит запросов к OpenAI API." +:+ nl +:+
  "Подождите некоторое время и попробуйте снова.".

Definition generic_message (error_str : string) : string :=
  "❌ Ошибка при обработке запроса: " +:+ error_str.

(** The tests of lines 282, 298 and 306. *)
Definition region_signal (error_str : string) : bool :=
  PyStr.contains "403" error_str
  || PyStr.contains "unsupported_country_region_territory" (PyStr.lower env error_str).
Definition auth_signal (error_str : string) : bool :=
  PyStr.contains "401" error_str
  || PyStr.contains "invalid_api_key" (PyStr.lower env error_str).
Definition rate_limit_signal (error_str : string) : bool :=
  PyStr.contains "429" error_str
  || PyStr.contains "rate_limit" (PyStr.lower env error_str).

(** The [except Exception as e] block of [process] (lines 277-317). *)
Definition error_message (e : Exn) : string :=
  let error_str := exn_text e in
  if region_signal error_str then region_message
  else if auth_signal error_str then auth_message
  else if rate_limit_signal error_str then rate_limit_message
  else generic_message error_str.

Record Agent := mkAgent { memory : list Message; world : World }.

Definition process_body (user_input : string) : M Agent PyVal :=
  fun a =>
    let '(outcome, memory', w') := executor_invoke env user_input (memory a) (world a) in
    let a' := mkAgent memory' w' in
    match outcome with
    | inl e => (Raise e, a')
    | inr response =>
        let checked :=
          answer ← PyOps.get response "output" (VStr "Извините, не удалось обработать запрос.");
          _ ← PyOps.len answer;
          _ ← PyIter.slice_check answer;
          Ok answer in
        match checked with
        | Ok answer =>
            let (r, w'') := _save_memory memory' w' in
            (match r with Ok _ => Ok answer | Raise e'' => Raise e'' | Hang => Hang end,
             mkAgent memory' w'')
        | Raise e => (Raise e, a')
        | Hang => (Hang, a')
        end
    end.

Definition process (user_input : string) : M Agent PyVal :=
  try_except (process_body user_input) (fun e => mret (VStr (error_message e))).

End Agent.

(** ** The specification's side *)

(** The case analysis the specification gives for [normalize(raw)]: a
    scalar gives its string form; in a sequence the metadata objects are
    set aside, and then no real entry gives the single element if the
    sequence has exactly one, else all elements joined by a space (the
    empty string for the empty sequence); one real entry gives that entry;
    several give the entries joined by a space. *)
Definition normalize_spec (env : Env) (raw : PyVal) : string :=
  match raw with
  | VList entries =>
      match List.filter not_dict entries with
      | [] =>
          match entries with
          | [] => EmptyString
          | [only] => Py.str env only
          | _ => PyStr.join " " (map (Py.str env) entries)
          end
      | [real] => Py.str env real
      | reals => PyStr.join " " (map (Py.str env) reals)
      end
  | scalar => Py.str env scalar
  end.

(** ** A concrete environment

    Its Unicode tables leave the characters beyond ASCII as they are.
    Every request goes unanswered, every shell command that runs leaves
    its text in a file named [sentinel], the agent executor fails with the
    user input as the error text, a message keeps a string content,
    [format] gives a number as it is written, and the image of a text is
    the text. *)

Fixpoint drop_bytes (n : nat) (s : string) : string :=
  match n, s with
  | S k, String _ s' => drop_bytes k s'
  | _, _ => s
  end.

Fixpoint leading_run (s : string) : string :=
  match s with
  | EmptyString => EmptyString
  | String c s' => if PyStr.is_ascii c then EmptyString else String c (leading_run s')
  end.

Definition copy_run (whole : string) (pos : nat) : string :=
  leading_run (drop_bytes pos whole).

Definition probe_env : Env := {|
  lower_table := copy_run;
  upper_table := copy_run;
  repr_table := copy_run;
  json_loads := fun _ => inl (mkExn JSONDecodeError "Expecting value: line 1 column 1 (char 0)");
  format_spec := fun _ v =>
    match v with
    | VInt z => inr (PyStr.of_Z z)
    | VFloat r => inr r
    | _ => inl (mkExn TypeError
                  ("unsupported format string passed to " +:+ Py.type_name v +:+ ".__format__"))
    end;
  server := fun _ => Silent;
  shell := fun command fs =>
             (Completed 0 EmptyString EmptyString, (<["sentinel" := Text command]> (fst fs), snd fs));
  open_error := fun _ _ => None;
  read_error := fun _ _ => None;
  makedirs_error := fun _ _ => None;
  nominatim_error := None;
  geocode := fun _ _ => NoMatch;
  ddgs_error := None;
  ddgs_text := fun _ => inr [];
  executor_invoke := fun user_input memory w => (inl (mkExn RuntimeError user_input), memory, w);
  chat_error := None;
  summary_llm := fun _ => inr "summary";
  message_content := fun v =>
    match v with
    | VStr s => inr s
    | _ => inl (mkExn ValidationError "Input should be a valid string")
    end;
  qrcode_available := true;
  getenv := fun _ => None;
  qr_image := fun data => inr data;
  save_error := fun _ _ => None
|}.

(** The probe environment with another far end, geocoder or executor. *)
Definition with_server (env : Env) (far_end : HttpCall -> ServerBehaviour) : Env := {|
  lower_table := lower_table env; upper_table := upper_table env;
  repr_table := repr_table env; json_loads := json_loads env;
  format_spec := format_spec env; server := far_end; shell := shell env;
  open_error := open_error env; read_error := read_error env;
  makedirs_error := makedirs_error env; nominatim_error := nominatim_error env;
  geocode := geocode env; ddgs_error := ddgs_error env; ddgs_text := ddgs_text env;
  executor_invoke := executor_invoke env; chat_error := chat_error env;
  summary_llm := summary_llm env; message_content := message_content env;
  qrcode_available := qrcode_available env; getenv := getenv env;
  qr_image := qr_image env; save_error := save_error env
|}.

Definition with_geocode (env : Env) (geocoder : nat -> string -> GeoOutcome) : Env := {|
  lower_table := lower_table env; upper_table := upper_table env;
  repr_table := repr_table env; json_loads := json_loads env;
  format_spec := format_spec env; server := server env; shell := shell env;
  open_error := open_error env; read_error := read_error env;
  makedirs_error := makedirs_error env; nominatim_error := nominatim_error env;
  geocode := geocoder; ddgs_error := ddgs_error env; ddgs_text := ddgs_text env;
  executor_invoke := executor_invoke env; chat_error := chat_error env;
  summary_llm := summary_llm env; message_content := message_content env;
  qrcode_available := qrcode_available env; getenv := getenv env;
  qr_image := qr_image env; save_error := save_error env
|}.

Definition with_executor (env : Env)
    (executor : string -> list Message -> World -> (Exn + PyVal) * list Message * World)
  : Env := {|
  lower_table := lower_table env; upper_table := upper_table env;
  repr_table := repr_table env; json_loads := json_loads env;
  format_spec := format_spec env; server := server env; shell := shell env;
  open_error := open_error env; read_error := read_error env;
  makedirs_error := makedirs_error env; nominatim_error := nominatim_error env;
  geocode := geocode env; ddgs_error := ddgs_error env; ddgs_text := ddgs_text env;
  executor_invoke := executor; chat_error := chat_error env;
  summary_llm := summary_llm env; message_content := message_content env;
  qrcode_available := qrcode_available env; getenv := getenv env;
  qr_image := qr_image env; save_error := save_error env
|}.

Definition empty_world : World := mkWorld ∅ ∅ [] [] [] [].

(** ** Named values used in the statements *)

Definition coingecko_call : HttpCall :=
  mkCall "GET" "https://api.coingecko.com/api/v3/simple/price?ids=bitcoin&vs_currencies=usd"
    VNone VNone None.
Definition example_call : HttpCall :=
  mkCall "GET" "http://example.com" (VDict []) VNone None.
Definition exchangerate_call : HttpCall :=
  mkCall "GET" "https://api.exchangerate-api.com/v4/latest/USD" VNone VNone (Some 10%Z).

Definition write_success (file_path content : string) : string :=
  "Файл " +:+ file_path +:+ " успешно записан (" +:+ PyStr.of_nat (PyStr.len content) +:+
  " символов).".

Definition with_file (w : World) (path : string) (data : FileData) : World :=
  set_fs (<[path := data]> (files w)) (directories w) w.

Definition with_directory (w : World) (path : string) : World :=
  set_fs (files w) (directories w ∪ {[path]}) w.

Definition human_or_ai (m : Message) : Prop :=
  msg_class m = HumanMessage \/ msg_class m = AIMessage.

(** The message constructor keeps a string content as it is. *)
Definition keeps_strings (env : Env) : Prop :=
  forall s, message_content env (VStr s) = inr s.

Definition sample_memory : list Message :=
  [mkMessage HumanMessage "What's 2+2"; mkMessage AIMessage "4"; mkMessage HumanMessage "thanks"].

Definition half_good_document : PyVal :=
  VDict [("messages",
          VList [VDict [("type", VStr "human"); ("content", VStr "hi")];
                 VDict [("content", VStr "no type")];
                 VDict [("type", VStr "ai"); ("content", VStr "hello")]]);
         ("summary", VStr "s")].

(** *** Entries of the persisted message list *)

(** The message class the loop of [_load_memory] takes an entry for:
    human or AI when its type reads so, none for any other type. *)
Definition entry_class (env : Env) (msg : PyVal) : option MsgClass :=
  match PyOps.getitem env msg "type" with
  | Ok type =>
      if PyIter.is_text type "human" then Some HumanMessage
      else if PyIter.is_text type "ai" then Some AIMessage
      else None
  | _ => None
  end.

(** A malformed entry: its type cannot be read, or its type is human or
    AI and its content cannot be read or is refused by the message
    class. *)
Definition malformed (env : Env) (msg : PyVal) : Prop :=
  (exists e, PyOps.getitem env msg "type" = Raise e)
  \/ (exists cls, entry_class env msg = Some cls
        /\ ((exists e, PyOps.getitem env msg "content" = Raise e)
            \/ (exists c e, PyOps.getitem env msg "content" = Ok c
                            /\ message_content env c = inl e))).

(** The message of an entry that is not malformed; none for an entry of
    another type. *)
Definition entry_message (env : Env) (msg : PyVal) : option Message :=
  match entry_class env msg, PyOps.getitem env msg "content" with
  | Some cls, Ok c =>
      match message_content env c with
      | inr s => Some (mkMessage cls s)
      | inl _ => None
      end
  | _, _ => None
  end.

(** A message list whose third entry has a type and no content, after
    an entry of a type the loop passes over. *)
Definition stopping_entries : list PyVal :=
  [VDict [("type", VStr "human"); ("content", VStr "hi")];
   VDict [("type", VStr "system"); ("content", VStr "be brief")];
   VDict [("type", VStr "human")];
   VDict [("type", VStr "ai"); ("content", VStr "hello")]].

(** ** [bot/utils/message_splitter.py] *)

(** [MAX_MESSAGE_LENGTH] of [bot/config.py]. *)
Definition MAX_MESSAGE_LENGTH : nat := 4096.

Section Splitter.
(** A text is its sequence of characters; [newline] and [space] are the
    two characters the splitter looks for. *)
Context {A : Type} `{EqDecision A} (newline space : A).

(** [chunk.rfind(c)]: the last index that holds [c]. *)
Fixpoint rfind (c : A) (chunk : list A) : option nat :=
  match chunk with
  | [] => None
  | x :: chunk' =>
      match rfind c chunk' with
      | Some i => Some (S i)
      | None => if decide (x = c) then Some 0 else None
      end
  end.

(** [last > max_length * 0.5], for the index [rfind] gave (none is -1). *)
Definition past_half (last : option nat) (max_length : nat) : option nat :=
  match last with
  | Some i => if (max_length <? 2 * i)%nat then Some i else None
  | None => None
  end.

(** The [while] loop of lines 24-45; [fuel] bounds the iterations. *)
Fixpoint split_loop (fuel : nat) (text : list A) (max_length current_pos : nat)
  : option (list (list A)) :=
  if (current_pos <? length text)%nat then
    match fuel with
    | O => None
    | S fuel' =>
        let chunk := take max_length (drop current_pos text) in
        let step :=
          if (current_pos + max_length <? length text)%nat then
            match past_half (rfind newline chunk) max_length with
            | Some last_newline =>
                (take (last_newline + 1) chunk, current_pos + last_newline + 1)
            | None =>
                match past_half (rfind space chunk) max_length with
                | Some last_space => (take last_space chunk, current_pos + last_space + 1)
                | None => (chunk, current_pos + max_length)
                end
            end
          else (chunk, length text) in
        match split_loop fuel' text max_length (snd step) with
        | Some parts => Some (fst step :: parts)
        | None => None
        end
    end
  else Some [].

(** The characters a split may drop are spaces; all others are kept. *)
Definition kept (x : A) : Prop := x <> space.

(** [split_message(text, max_length)] *)
Definition split_message (fuel : nat) (text : list A) (max_length : nat)
  : option (list (list A)) :=
  if (length text <=? max_length)%nat then Some [text]
  else split_loop fuel text max_length 0.

End Splitter.

(** The splitter on a Python string, character by character. *)
Definition split_text (fuel : nat) (text : string) (max_length : nat) : option (list string) :=
  match split_message nl " " fuel (PyStr.chars text) max_length with
  | Some parts => Some (map (PyStr.join EmptyString) parts)
  | None => None
  end.

(** ** [bot/utils/user_states.py] *)

(** The module-level dict [user_states] is passed in and out. *)
Definition set_user_state (user_id : Z) (state : option string)
    (user_states : gmap Z string) : gmap Z string :=
  match state with
  | None => delete user_id user_states
  | Some s => <[user_id := s]> user_states
  end.

Definition get_user_state (user_id : Z) (user_states : gmap Z string) : option string :=
  user_states !! user_id.

Definition clear_user_state (user_id : Z) (user_states : gmap Z string) : gmap Z string :=
  set_user_state user_id None user_states.

(** ** Names used in the further statements *)

(** The hypotheses under which a write and a read of [path] go through. *)
Definition accessible (env : Env) (path : string) : Prop :=
  (forall w, open_error env w path = None)
  /\ (forall w, read_error env w path = None)
  /\ (forall w d, makedirs_error env w d = None).

(** What [_save_memory] followed by a load makes of a message: the class
    survives only as human or not human. *)
Definition as_persisted (m : Message) : Message :=
  mkMessage (match msg_class m with HumanMessage => HumanMessage | _ => AIMessage end)
    (content m).

(** A file entry with the given type and content, and the message
    [_load_memory] makes of it, if any. *)
Definition entry_record (tc : string * string) : PyVal :=
  VDict [("type", VStr (fst tc)); ("content", VStr (snd tc))].

Definition loaded_of (tc : string * string) : option Message :=
  if String.eqb (fst tc) "human" then Some (mkMessage HumanMessage (snd tc))
  else if String.eqb (fst tc) "ai" then Some (mkMessage AIMessage (snd tc))
  else None.

Definition default_answer : string := "Извините, не удалось обработать запрос.".

(** A currency code as the parser can take it: letters only, not empty,
    and without the two-letter word the parser replaces. *)
Definition is_letter (c : ascii) : bool :=
  let n := nat_of_ascii c in
  ((65 <=? n)%nat && (n <=? 90)%nat) || ((97 <=? n)%nat && (n <=? 122)%nat).

Fixpoint all_letters (s : string) : bool :=
  match s with
  | EmptyString => true
  | String c s' => is_letter c && all_letters s'
  end.

Definition currency_code (s : string) : Prop :=
  s <> EmptyString
  /\ all_letters s = true
  /\ PyStr.contains "to" s = false
  /\ PyStr.contains "TO" s = false.

(** The calls to the geocoder among the calls to the clients. *)
Definition is_geocode (c : ServiceCall) : bool :=
  match c with Geocode _ _ => true | _ => false end.

(** The Kelvin sign U+212A, a capital letter beyond ASCII whose lowercase
    is the ASCII letter k. *)
Definition kelvin_sign : string := PyStr.of_codes [226; 132; 170].


(** A text of ASCII characters none of which is a capital letter: what
    [lower] leaves as it is. *)
Fixpoint lowercase_ascii (s : string) : bool :=
  match s with
  | EmptyString => true
  | String c s' =>
      PyStr.is_ascii c && Ascii.eqb (PyStr.lower_char c) c && lowercase_ascii s'
  end.

(** * Properties *)

(** ** Checks of the Python string operations *)

Example strip_example :
  PyStr.strip (PyStr.of_codes [32; 194; 160; 9] +:+ "rm -rf /" +:+ PyStr.of_codes [10; 226; 128; 137])
  = "rm -rf /".
Proof. vm_compute. reflexivity. Qed.

Example replace_example :
  PyStr.replace "to" "/" "tomato to" = "/ma/ /".
Proof. vm_compute. reflexivity. Qed.

Example split_example :
  PyStr.split "/" "USD///EUR" = ["USD"; EmptyString; EmptyString; "EUR"].
Proof. vm_compute. reflexivity. Qed.

Example repr_example :
  forall env : Env,
    PyStr.repr env "it's" = String PyStr.dquote ("it's" +:+ String PyStr.dquote EmptyString).
Proof. intros env. vm_compute. reflexivity. Qed.

Example len_example : PyStr.len "Привет" = 6.
Proof. vm_compute. reflexivity. Qed.

Example dirname_example :
  Os.dirname "a/b/c.txt" = "a/b" /\ Os.dirname "out.txt" = EmptyString
  /\ Os.dirname "/out.txt" = "/".
Proof. vm_compute. auto. Qed.

Example str_example :
  forall env : Env,
    Py.str env (VList [VStr "Paris"; VDict [("call_id", VStr "x")]; VInt (-3)])
    = "['Paris', {'call_id': 'x'}, -3]".
Proof. intros env. vm_compute. reflexivity. Qed.

Example universal_newlines_example :
  PyStr.universal_newlines (PyStr.of_codes [97; 13; 98; 13; 10; 99; 10; 13; 13; 10])
  = PyStr.of_codes [97; 10; 98; 10; 99; 10; 10; 10].
Proof. vm_compute. reflexivity. Qed.

(** On ASCII text the case mappings consult no table. *)
Example lower_upper_ascii_example :
  forall env : Env,
    PyStr.lower env "  RM -rf /Tmp_1" = "  rm -rf /tmp_1"
    /\ PyStr.upper env "usd/Eur 1" = "USD/EUR 1".
Proof. intros env. split; vm_compute; reflexivity. Qed.

(** Beyond ASCII the table decides: with the lowercase of the Kelvin
    sign, a k, the text lowers to ASCII. *)
Lemma lower_kelvin_sign (env : Env) :
  lower_table env ("m" +:+ kelvin_sign +:+ "fs") 1 = "k" ->
  PyStr.lower env ("m" +:+ kelvin_sign +:+ "fs") = "mkfs".
Proof.
  intros Hk.
  assert (H : PyStr.lower env ("m" +:+ kelvin_sign +:+ "fs")
              = "m" +:+ (lower_table env ("m" +:+ kelvin_sign +:+ "fs") 1 +:+ "fs"))
    by reflexivity.
  rewrite H, Hk. reflexivity.
Qed.

(** ** Strings: appending, reversing, searching *)

Lemma string_app_empty (p : string) : p +:+ EmptyString = p.
Proof.
  induction p as [ | a p IH]; [reflexivity | ].
  change (String a p +:+ EmptyString) with (String a (p +:+ EmptyString)).
  rewrite IH. reflexivity.
Qed.

Lemma string_app_assoc (a b c : string) : (a +:+ b) +:+ c = a +:+ (b +:+ c).
Proof.
  induction a as [ | x a IH]; [reflexivity | ].
  change (String x a +:+ b) with (String x (a +:+ b)).
  change (String x (a +:+ b) +:+ c) with (String x ((a +:+ b) +:+ c)).
  rewrite IH. reflexivity.
Qed.

Lemma prefix_empty (s : string) : String.prefix EmptyString s = true.
Proof. destruct s; reflexivity. Qed.

Lemma contains_cons (needle : string) (a : ascii) (s : string) :
  PyStr.contains needle (String a s)
  = String.prefix needle (String a s) || PyStr.contains needle s.
Proof. reflexivity. Qed.

Lemma contains_of_prefix (needle s : string) :
  String.prefix needle s = true -> PyStr.contains needle s = true.
Proof.
  intros H. destruct s as [ | a s].
  - destruct needle; [reflexivity | discriminate H].
  - rewrite contains_cons, H. reflexivity.
Qed.

Lemma contains_app_r (needle x y : string) :
  PyStr.contains needle y = true -> PyStr.contains needle (x +:+ y) = true.
Proof.
  intros H. induction x as [ | a x IH]; [exact H | ].
  change (String a x +:+ y) with (String a (x +:+ y)).
  rewrite contains_cons, IH. apply orb_true_r.
Qed.

(** ** Argument normaliser *)

Example normalize_scenario_2 :
  forall env : Env,
    _normalize_input env (VList [VStr "Paris"; VDict [("call_id", VStr "x")]]) = "Paris".
Proof. reflexivity. Qed.

Example normalize_only_metadata :
  forall env : Env,
    _normalize_input env (VList [VDict [("a", VInt 1)]; VDict []]) = "{'a': 1} {}".
Proof. intros env. vm_compute. reflexivity. Qed.

(** C4. [_normalize_input] is the specified case analysis: on every
    value, scalar or sequence, with or without metadata entries, empty or
    not, it returns what [normalize_spec] prescribes.  Being a function
    from values to strings it is deterministic, touches no state and has
    no failing case. *)
Theorem normalize_input_meets_spec :
  forall (env : Env) (raw : PyVal), _normalize_input env raw = normalize_spec env raw.
Proof.
  intros env raw. destruct raw as [ | b | z | r | s | l | d]; try reflexivity.
  unfold _normalize_input, normalize_spec.
  destruct (List.filter not_dict l) as [ | x [ | y reals]] eqn:Hreal; simpl.
  - destruct l as [ | a [ | b l']]; reflexivity.
  - reflexivity.
  - reflexivity.
Qed.

(** ** Shell execution: the denylist *)

Lemma find_startswith_some (command_lower d : string) :
  In d dangerous_commands ->
  PyStr.startswith command_lower d = true ->
  exists d', List.find (PyStr.startswith command_lower) dangerous_commands = Some d'
             /\ In d' dangerous_commands.
Proof.
  intros Hin Hpre.
  destruct (List.find (PyStr.startswith command_lower) dangerous_commands) as [d' | ] eqn:Hfind.
  - exists d'. split; [reflexivity | ]. apply find_some in Hfind. tauto.
  - exfalso. pose proof (find_none _ _ Hfind d Hin) as Hno. congruence.
Qed.

(** C3. A command whose lowercased, trimmed text starts with a denylisted
    token is refused: whatever shape the arguments arrive in and whatever
    the lowercase of its characters is, once they normalise to such a
    command [execute_terminal] returns the refusal string naming a
    denylisted token, and the world it returns is the world it was
    given, so no subprocess was started and no file was touched. *)
Theorem execute_terminal_refuses_denylisted :
  forall (env : Env) (args : list PyVal) (kwargs : list (string * PyVal))
         (d : string) (w : World),
    let command := _normalize_input env (tool_argument "command" args kwargs) in
    In d dangerous_commands ->
    PyStr.startswith (PyStr.strip (PyStr.lower env command)) d = true ->
    exists d', In d' dangerous_commands
               /\ execute_terminal env args kwargs w = (Ok (refusal d'), w).
Proof.
  intros env args kwargs d w command Hin Hpre.
  destruct (find_startswith_some _ _ Hin Hpre) as (d' & Hfind & Hin').
  exists d'. split; [exact Hin' | ].
  unfold execute_terminal. fold command.
  rewrite Hfind. reflexivity.
Qed.

Lemma execute_terminal_refuses_denylisted_witness :
  In "rm" dangerous_commands
  /\ PyStr.startswith (PyStr.strip (PyStr.lower probe_env "  RM -rf /")) "rm" = true
  /\ exists d', In d' dangerous_commands
                /\ execute_terminal probe_env
                     [VStr "  RM -rf /"; VDict [("call_id", VStr "x")]] [] empty_world
                   = (Ok (refusal d'), empty_world).
Proof.
  split; [simpl; auto | split; [vm_compute; reflexivity | ]].
  apply (execute_terminal_refuses_denylisted probe_env
           [VStr "  RM -rf /"; VDict [("call_id", VStr "x")]] [] "rm" empty_world).
  - simpl. auto.
  - vm_compute. reflexivity.
Defined.

(** A command spelled with a letter beyond ASCII is refused as well, as
    soon as its lowercase starts with a token: [mkfs] written with the
    Kelvin sign. *)
Lemma execute_terminal_refuses_kelvin_sign (env : Env) (w : World) :
  lower_table env ("m" +:+ kelvin_sign +:+ "fs") 1 = "k" ->
  execute_terminal env [VStr ("m" +:+ kelvin_sign +:+ "fs")] [] w = (Ok (refusal "mkfs"), w).
Proof.
  intros Hk. unfold execute_terminal.
  change (_normalize_input env (tool_argument "command" [VStr ("m" +:+ kelvin_sign +:+ "fs")] []))
    with ("m" +:+ kelvin_sign +:+ "fs").
  rewrite (lower_kelvin_sign env Hk). reflexivity.
Qed.

(** The same command text with the denylist out of the way does run: the
    probe environment's shell leaves its sentinel. *)
Example execute_terminal_runs_other_commands :
  let (r, w) := execute_terminal probe_env [VStr "touch sentinel"] [] empty_world in
  r = Ok ("Exit code: 0" +:+ nl +:+ "Output:" +:+ nl)
  /\ spawned w = ["touch sentinel"]
  /\ files w !! "sentinel" = Some (Text "touch sentinel").
Proof. vm_compute. auto. Qed.

Example execute_terminal_scenario_4 :
  execute_terminal probe_env [VStr "rm -rf /"] [] empty_world
  = (Ok "Ошибка: Команда 'rm' запрещена из соображений безопасности.", empty_world).
Proof. vm_compute. reflexivity. Qed.

(** ** Crypto-price tool: list arguments *)

Lemma get_crypto_price_argument (env : Env) (x : PyVal) (s : string) (w : World) :
  Py.is_dict x = false ->
  crypto_argument env x = Ok s ->
  get_crypto_price env [x] [] w = get_crypto_price env [VStr s] [] w.
Proof.
  intros Hx Hs. unfold get_crypto_price.
  assert (Harg : tool_argument "coin_and_currency" [x] [] = x).
  { unfold tool_argument, _extract_tool_args. simpl. unfold not_dict. rewrite Hx. reflexivity. }
  rewrite Harg, Hs. reflexivity.
Qed.

(** C10. Given a list, the crypto-price tool does not use the general
    normaliser: one element becomes that element, two elements are joined
    by a comma, and from three elements on only the first is used and the
    rest dropped, where the general normaliser would join with spaces.
    The tool then behaves as on the resulting string. *)
Theorem crypto_price_list_argument :
  forall env : Env,
    (forall a, crypto_argument env (VList [a]) = Ok (Py.str env a))
    /\ (forall a b,
          crypto_argument env (VList [a; b]) = Ok (Py.str env a +:+ "," +:+ Py.str env b))
    /\ (forall a b c rest, crypto_argument env (VList (a :: b :: c :: rest)) = Ok (Py.str env a))
    /\ (forall a b c rest w,
          get_crypto_price env [VList (a :: b :: c :: rest)] [] w
          = get_crypto_price env [VStr (Py.str env a)] [] w)
    /\ (forall a b w,
          get_crypto_price env [VList [a; b]] [] w
          = get_crypto_price env [VStr (Py.str env a +:+ "," +:+ Py.str env b)] [] w)
    /\ _normalize_input env (VList [VStr "bitcoin"; VStr "usd"; VStr "eur"])
       = "bitcoin usd eur".
Proof.
  intros env. repeat split; intros; try reflexivity.
Qed.

(** ** Tools that raise *)

(** C2. [get_crypto_price] called with the empty list raises: line 578
    indexes the list outside the [try] block. *)
Theorem get_crypto_price_empty_list_raises :
  forall (env : Env) (nt : bool) (dumps : PyVal -> string) (w : World),
    In ("get_crypto_price", get_crypto_price env) (get_tools env nt dumps)
    /\ get_crypto_price env [VList []] [] w
       = (Raise (mkExn IndexError "list index out of range"), w).
Proof.
  intros env nt dumps w. split.
  - unfold get_tools. simpl. tauto.
  - reflexivity.
Qed.

(** The sibling tools guard the same case (lines 323 and 709). *)
Example write_file_empty_list_returns :
  write_file_wrapper probe_env [VList []] [] empty_world
  = (Ok "Ошибка: Не указан путь к файлу", empty_world).
Proof. vm_compute. reflexivity. Qed.

Example generate_qr_code_empty_list_returns :
  generate_qr_code probe_env false [VList []] [] empty_world
  = (Ok "Ошибка: Не указаны данные для генерации QR-кода", empty_world).
Proof. vm_compute. reflexivity. Qed.

(** When the geocoder cannot be constructed and the error text has none
    of the handler's keywords, the handler of [get_weather] reads the
    unassigned local [location] and raises in its turn. *)
Lemma get_weather_handler_raises (env : Env) (e : Exn) (city : string) (w : World) :
  nominatim_error env = Some e ->
  PyStr.contains "timeout" (PyStr.lower env (exn_text e)) = false ->
  PyStr.contains "timed out" (PyStr.lower env (exn_text e)) = false ->
  PyStr.contains "GeocoderUnavailable" (exn_text e) = false ->
  PyStr.contains "unavailable" (PyStr.lower env (exn_text e)) = false ->
  PyStr.contains "not found" (PyStr.lower env (exn_text e)) = false ->
  exists e', get_weather env [VStr city] [] w = (Raise e', w)
             /\ exn_class e' = UnboundLocalError.
Proof.
  intros Hn H1 H2 H3 H4 H5. eexists. split.
  - unfold get_weather, with_local, try_except, weather_body.
    change (_normalize_input env (tool_argument "city" [VStr city] [])) with city.
    unfold mbind, M_bind, m_bind, lift. rewrite Hn. simpl.
    unfold weather_handler. rewrite H1, H2, H3, H4, H5. simpl.
    reflexivity.
  - reflexivity.
Qed.

(** ** Outbound requests and their timeouts *)

Lemma requests_call_log (env : Env) (c : HttpCall) (w : World) :
  http_log (snd (requests_call env c w)) = (http_log w ++ [c])%list.
Proof.
  unfold requests_call.
  destruct (server env c); [reflexivity | reflexivity | ].
  destruct (call_timeout c); reflexivity.
Qed.

Lemma try_except_log {A} (body : M World A) (handler : Exn -> M World A) (w : World)
    (log : list HttpCall) :
  http_log (snd (body w)) = log ->
  (forall e w', http_log (snd (handler e w')) = http_log w') ->
  http_log (snd (try_except body handler w)) = log.
Proof.
  intros Hbody Hhandler. unfold try_except.
  destruct (body w) as [[a | e | ] w'] eqn:Hrun; simpl in *; try exact Hbody.
  rewrite Hhandler. exact Hbody.
Qed.

Lemma bind_request_log {A} (env : Env) (c : HttpCall) (k : Response -> M World A) (w : World) :
  (forall r w', http_log (snd (k r w')) = http_log w') ->
  http_log (snd ((requests_call env c ≫= k) w)) = (http_log w ++ [c])%list.
Proof.
  intros Hk. unfold mbind, M_bind, m_bind.
  pose proof (requests_call_log env c w) as Hlog.
  destruct (requests_call env c w) as [[r | e | ] w']; simpl in *; try exact Hlog.
  rewrite Hk. exact Hlog.
Qed.

Lemma pure_tail_log {A B} (r : Res A) (k : A -> M World B) (w : World) :
  (forall a, http_log (snd (k a w)) = http_log w) ->
  http_log (snd ((lift r ≫= k) w)) = http_log w.
Proof.
  intros Hk. unfold mbind, M_bind, m_bind, lift.
  destruct r; simpl; auto.
Qed.

Lemma of_sum_tail_log {A B} (r : Exn + A) (k : A -> M World B) (w : World) :
  (forall a, http_log (snd (k a w)) = http_log w) ->
  http_log (snd ((of_sum r ≫= k) w)) = http_log w.
Proof.
  intros Hk. unfold mbind, M_bind, m_bind, of_sum.
  destruct r; simpl; auto.
Qed.

(** C7. The crypto-price tool and the HTTP tool send their request with no
    timeout: whatever the environment, the call they add to the log has
    [call_timeout = None]. *)
Theorem crypto_and_http_requests_carry_no_timeout :
  forall (env : Env) (w : World),
    http_log (snd (get_crypto_price env [VStr "bitcoin"] [] w))
    = (http_log w ++ [coingecko_call])%list
    /\ http_log (snd (http_request env [VStr "GET|http://example.com"] [] w))
       = (http_log w ++ [example_call])%list
    /\ call_timeout coingecko_call = None
    /\ call_timeout example_call = None.
Proof.
  intros env w. repeat split.
  - unfold get_crypto_price.
    change (lift (crypto_argument env (tool_argument "coin_and_currency" [VStr "bitcoin"] [])))
      with (@lift World string (Ok "bitcoin")).
    unfold mbind at 1. unfold M_bind, m_bind, lift.
    apply try_except_log; [ | reflexivity].
    apply bind_request_log. intros r w'.
    apply pure_tail_log. intros _.
    apply of_sum_tail_log. intros data.
    apply pure_tail_log. intros present.
    destruct present; simpl; [ | reflexivity].
    apply pure_tail_log. intros entry.
    apply pure_tail_log. intros price.
    destruct price; try reflexivity; apply of_sum_tail_log; reflexivity.
  - unfold http_request.
    apply try_except_log; [ | reflexivity].
    apply (bind_request_log env example_call). intros r w'.
    apply pure_tail_log. reflexivity.
Qed.

(** With the far end silent, the crypto-price tool and the HTTP tool never
    return, while the currency tool, which passes [timeout=10], returns
    its error string. *)
Lemma silent_server_outcomes (env : Env) (w : World) :
  (forall c, server env c = Silent) ->
  fst (get_crypto_price env [VStr "bitcoin"] [] w) = Hang
  /\ fst (http_request env [VStr "GET|http://example.com"] [] w) = Hang
  /\ fst (get_currency_rate env [VStr "EUR"] [] w)
     = Ok "Ошибка получения курса валют: Read timed out. (read timeout=10)".
Proof.
  intros Hsilent. repeat split.
  - unfold get_crypto_price.
    change (lift (crypto_argument env (tool_argument "coin_and_currency" [VStr "bitcoin"] [])))
      with (@lift World string (Ok "bitcoin")).
    unfold mbind, M_bind, m_bind, lift, try_except, requests_call. simpl.
    rewrite Hsilent. reflexivity.
  - unfold http_request, mbind, M_bind, m_bind, try_except, requests_call. simpl.
    rewrite Hsilent. reflexivity.
  - unfold get_currency_rate, mbind, M_bind, m_bind, try_except, requests_call. simpl.
    rewrite Hsilent. reflexivity.
Qed.

Lemma silent_server_outcomes_witness :
  fst (get_crypto_price probe_env [VStr "bitcoin"] [] empty_world) = Hang
  /\ fst (http_request probe_env [VStr "GET|http://example.com"] [] empty_world) = Hang
  /\ fst (get_currency_rate probe_env [VStr "EUR"] [] empty_world)
     = Ok "Ошибка получения курса валют: Read timed out. (read timeout=10)".
Proof. apply (silent_server_outcomes probe_env empty_world). reflexivity. Defined.

Example weather_request_has_timeout :
  let env := with_geocode probe_env (fun _ _ => Located (mkLocation "48.85" "2.35")) in
  let (r, w) := get_weather env [VStr "Paris"; VDict [("call_id", VStr "x")]] [] empty_world in
  r = Ok ("Ошибка: Сервис геокодирования недоступен (таймаут). " +:+
          "Попробуйте позже или укажите более точное название города.")
  /\ map call_timeout (http_log w) = [Some 10%Z]
  /\ service_log w = [Geocode "Paris" 10].
Proof. vm_compute. auto. Qed.

Example currency_request_has_timeout :
  http_log (snd (get_currency_rate probe_env [VStr "EUR"] [] empty_world)) = [exchangerate_call]
  /\ call_timeout exchangerate_call = Some 10%Z.
Proof. vm_compute. auto. Qed.

(** The text of a refused request quotes the URL the response carries. *)
Example http_request_error_quotes_response_url :
  let env := with_server probe_env
               (fun _ => Answers (mkResponse 404 "Not Found" "http://example.com/a%20b"
                                    EmptyString (inr VNone))) in
  fst (http_request env [VStr "GET|http://example.com/a b"] [] empty_world)
  = Ok "Ошибка HTTP запроса: 404 Client Error: Not Found for url: http://example.com/a%20b".
Proof. vm_compute. reflexivity. Qed.

(** ** Currency tool: the pair parser *)

Example parse_slash_pair :
  forall env : Env, parse_currency_pair env "USD/EUR" = ("USD", "EUR").
Proof. intros env. vm_compute. reflexivity. Qed.

Example parse_space_pair :
  forall env : Env, parse_currency_pair env "usd eur" = ("USD", "EUR").
Proof. intros env. vm_compute. reflexivity. Qed.

Example parse_single_currency :
  forall env : Env, parse_currency_pair env "EUR" = ("USD", "EUR").
Proof. intros env. vm_compute. reflexivity. Qed.

(** C8. On the spelling [USD to EUR] the parser gives base [USD] and an
    empty target: replacing the word leaves its two spaces, which become
    separators of their own, so the second part of the split is empty.
    The slash spelling of the same pair gives [EUR]. *)
Theorem parse_currency_pair_to_spelling :
  forall env : Env,
    parse_currency_pair env "USD to EUR" = ("USD", EmptyString)
    /\ parse_currency_pair env "USD/EUR" = ("USD", "EUR")
    /\ parse_currency_pair env "USD to EUR" <> parse_currency_pair env "USD/EUR".
Proof.
  intros env.
  assert (H1 : parse_currency_pair env "USD to EUR" = ("USD", EmptyString))
    by (vm_compute; reflexivity).
  assert (H2 : parse_currency_pair env "USD/EUR" = ("USD", "EUR"))
    by (vm_compute; reflexivity).
  split; [exact H1 | split; [exact H2 | ]].
  rewrite H1, H2. discriminate.
Qed.

(** The two letters inside a code are replaced as well. *)
Example parse_code_holding_to :
  forall env : Env,
    parse_currency_pair env "TOP" = (EmptyString, "P")
    /\ parse_currency_pair env "TOP/USD" = (EmptyString, "P").
Proof. intros env. vm_compute. auto. Qed.

(** What the tool then answers when the service does reply. *)
Example currency_rate_to_spelling :
  let rates := VDict [("rates", VDict [("EUR", VFloat "0.92"); ("USD", VInt 1)])] in
  let env := with_server probe_env
               (fun c => Answers (mkResponse 200 "OK" (call_url c) EmptyString (inr rates))) in
  fst (get_currency_rate env [VStr "USD to EUR"] [] empty_world)
  = Ok ("Валюта '' не найдена." +:+ nl +:+ "Доступные валюты (примеры): EUR, USD...")
  /\ fst (get_currency_rate env [VStr "USD/EUR"] [] empty_world) = Ok "Курс USD/EUR: 0.92".
Proof. vm_compute. auto. Qed.

(** ** Write-file tool *)

(** C9, as stated, fails: the call without the bar returns the very string
    that a call with the bar and an empty content returns, so nothing in
    the result marks the missing delimiter. *)
Lemma write_file_no_delimiter_not_marked :
  write_file_wrapper probe_env [VStr "out.txt"] [] empty_world
  = write_file_wrapper probe_env [VStr "out.txt|"] [] empty_world
  /\ fst (write_file_wrapper probe_env [VStr "out.txt"] [] empty_world)
     = Ok (write_success "out.txt" EmptyString).
Proof. vm_compute. auto. Qed.

(** C9, amended. When [out.txt] can be opened for writing, the input
    [out.txt|Hello] stores exactly [Hello] in [out.txt] and returns the
    success string naming the file and the count 5; the input [out.txt]
    stores the empty text and returns the same success string with the
    count 0. *)
Theorem write_file_scenario_3 :
  forall (env : Env) (w : World),
    open_error env w "out.txt" = None ->
    write_file_wrapper env [VStr "out.txt|Hello"] [] w
    = (Ok "Файл out.txt успешно записан (5 символов).", with_file w "out.txt" (Text "Hello"))
    /\ write_file_wrapper env [VStr "out.txt"] [] w
       = (Ok "Файл out.txt успешно записан (0 символов).",
          with_file w "out.txt" (Text EmptyString)).
Proof.
  intros env w Hopen.
  assert (Hpath : PyStr.strip (String.rev "txt.tuo") = "out.txt") by (vm_compute; reflexivity).
  assert (Hpath' : PyStr.strip "out.txt" = "out.txt") by (vm_compute; reflexivity).
  split.
  - unfold write_file_wrapper, write_file_impl. simpl.
    unfold try_except, mbind, M_bind, m_bind, write_data. simpl.
    rewrite Hpath, Hopen. reflexivity.
  - unfold write_file_wrapper, write_file_impl. simpl.
    unfold try_except, mbind, M_bind, m_bind, write_data. simpl.
    rewrite Hpath', Hopen. reflexivity.
Qed.

Lemma write_file_scenario_3_witness :
  open_error probe_env empty_world "out.txt" = None
  /\ write_file_wrapper probe_env [VStr "out.txt|Hello"] [] empty_world
     = (Ok "Файл out.txt успешно записан (5 символов).",
        with_file empty_world "out.txt" (Text "Hello"))
  /\ write_file_wrapper probe_env [VStr "out.txt"] [] empty_world
     = (Ok "Файл out.txt успешно записан (0 символов).",
        with_file empty_world "out.txt" (Text EmptyString)).
Proof.
  split; [reflexivity | ].
  apply (write_file_scenario_3 probe_env empty_world). reflexivity.
Defined.

(** ** Dispatch failures *)

Lemma prefix_lowered (table : string -> nat -> string) (whole needle : string) :
  lowercase_ascii needle = true ->
  forall (s : string) (pos : nat) (in_run : bool),
    String.prefix needle s = true ->
    String.prefix needle
      (PyStr.map_text (fun c => String (PyStr.lower_char c) EmptyString) table whole pos in_run s)
    = true.
Proof.
  induction needle as [ | c needle IH]; intros Hlow s pos in_run H.
  - apply prefix_empty.
  - destruct s as [ | c' s]; simpl in H; [discriminate | ].
    destruct (ascii_dec c c') as [<- | Hne]; [ | discriminate].
    simpl in Hlow. apply andb_true_iff in Hlow as [Hc Hlow].
    apply andb_true_iff in Hc as [Hascii Hfixed].
    apply Ascii.eqb_eq in Hfixed.
    cbn [PyStr.map_text]. rewrite Hascii, Hfixed.
    change (String c EmptyString +:+ ?t) with (String c t).
    simpl. destruct (ascii_dec c c); [ | congruence].
    apply IH; assumption.
Qed.

Lemma contains_lowered (table : string -> nat -> string) (whole needle : string) :
  lowercase_ascii needle = true ->
  forall (s : string) (pos : nat) (in_run : bool),
    PyStr.contains needle s = true ->
    PyStr.contains needle
      (PyStr.map_text (fun c => String (PyStr.lower_char c) EmptyString) table whole pos in_run s)
    = true.
Proof.
  intros Hlow s. induction s as [ | c s IH]; intros pos in_run H.
  - exact H.
  - rewrite contains_cons in H. apply orb_true_iff in H as [H | H].
    + apply contains_of_prefix. apply prefix_lowered; assumption.
    + cbn [PyStr.map_text]. destruct (PyStr.is_ascii c); apply contains_app_r, IH; exact H.
Qed.

Lemma contains_lower (env : Env) (needle s : string) :
  lowercase_ascii needle = true ->
  PyStr.contains needle s = true ->
  PyStr.contains needle (PyStr.lower env s) = true.
Proof. intros Hlow H. unfold PyStr.lower. apply contains_lowered; assumption. Qed.

(** An error text that holds one of the named tokens sets the signal of
    its class. *)
Lemma signals_of_tokens (env : Env) (t : string) :
  (PyStr.contains "403" t = true
   \/ PyStr.contains "unsupported_country_region_territory" t = true ->
   region_signal env t = true)
  /\ (PyStr.contains "401" t = true
      \/ PyStr.contains "invalid_api_key" t = true -> auth_signal env t = true)
  /\ (PyStr.contains "429" t = true
      \/ PyStr.contains "rate_limit" t = true -> rate_limit_signal env t = true).
Proof.
  unfold region_signal, auth_signal, rate_limit_signal.
  repeat split; intros [H | H]; apply orb_true_iff; auto; right;
    apply contains_lower; auto.
Qed.

(** So does a token spelled with a letter beyond ASCII whose lowercase is
    the token's letter: [invalid_api_key] written with the Kelvin sign. *)
Lemma auth_signal_kelvin_sign (env : Env) :
  let t := "invalid_api_" +:+ kelvin_sign +:+ "ey" in
  lower_table env t 12 = "k" ->
  auth_signal env t = true /\ region_signal env t = false.
Proof.
  intros t Hk.
  assert (H : PyStr.lower env t = "invalid_api_" +:+ (lower_table env t 12 +:+ "ey"))
    by reflexivity.
  unfold auth_signal, region_signal. rewrite H, Hk. split; vm_compute; reflexivity.
Qed.

Lemma messages_distinct :
  region_message <> auth_message
  /\ region_message <> rate_limit_message
  /\ auth_message <> rate_limit_message
  /\ (forall t, generic_message t <> region_message)
  /\ (forall t, generic_message t <> auth_message)
  /\ (forall t, generic_message t <> rate_limit_message).
Proof.
  repeat split;
    first [ intros t H; vm_compute in H; discriminate H
          | intros H; vm_compute in H; discriminate H ].
Qed.

(** [_generate_summary] always returns a string; it leaves the world as
    it was or adds one chat call, and the latter only when there are
    messages. *)
Lemma generate_summary_cases (env : Env) (M : list Message) (w : World) :
  exists s,
    _generate_summary env M w = (Ok s, w)
    \/ (M <> [] /\ exists p, _generate_summary env M w
                             = (Ok s, log_service (Chat "gpt-3.5-turbo" p) w)).
Proof.
  unfold _generate_summary, try_except.
  destruct (PyIter.last_n 10 M) as [ | m recent] eqn:Hrecent.
  - eexists. left. reflexivity.
  - assert (HM : M <> []) by (intros ->; discriminate Hrecent).
    unfold mbind, M_bind, m_bind, lift, service_call.
    destruct (chat_error env) as [e | ].
    + eexists. left. reflexivity.
    + match goal with |- context [summary_llm env ?p] => destruct (summary_llm env p) as [e | s] end.
      * eexists. right. split; [exact HM | eexists; reflexivity].
      * exists s. right. split; [exact HM | eexists; reflexivity].
Qed.

Lemma generate_summary_returns (env : Env) (M : list Message) (w : World) :
  exists s, fst (_generate_summary env M w) = Ok s.
Proof.
  destruct (generate_summary_cases env M w) as [s [H | (_ & p & H)]];
    exists s; rewrite H; reflexivity.
Qed.

(** [_save_memory] generates the summary and then opens the file: when
    the file cannot be opened, the world is as the summary left it. *)
Lemma save_memory_runs (env : Env) (memory_file : string) (M : list Message) (w : World) :
  exists s,
    fst (_generate_summary env M w) = Ok s
    /\ _save_memory env memory_file M w
       = (Ok tt,
          let w1 := snd (_generate_summary env M w) in
          match open_error env w1 memory_file with
          | Some _ => w1
          | None => with_file w1 memory_file (JsonDoc (memory_document M s))
          end).
Proof.
  destruct (generate_summary_returns env M w) as [s Hs]. exists s. split; [exact Hs | ].
  unfold _save_memory, try_except, mbind, M_bind, m_bind.
  destruct (_generate_summary env M w) as [r w1]. simpl in Hs. subst r. simpl.
  unfold write_data. destruct (open_error env w1 memory_file); reflexivity.
Qed.

Lemma save_memory_returns (env : Env) (memory_file : string) (memory : list Message) (w : World) :
  fst (_save_memory env memory_file memory w) = Ok tt.
Proof.
  destruct (save_memory_runs env memory_file memory w) as (s & _ & Hrun).
  rewrite Hrun. reflexivity.
Qed.

(** [process] returns whatever its [try] block does; a raise becomes the
    classified message. *)
Lemma process_returns (env : Env) (memory_file user_input : string) (a : Agent) :
  exists v a', process env memory_file user_input a = (Ok v, a').
Proof.
  unfold process, try_except, process_body.
  destruct (executor_invoke env user_input (memory a) (world a)) as [[[e | response] memory'] w'].
  - eauto.
  - destruct (PyOps.get response "output" _) as [answer | e | ] eqn:Hget; simpl.
    + destruct (PyOps.len answer) as [n | e | ] eqn:Hlen; simpl.
      * destruct (PyIter.slice_check answer) as [[] | e | ] eqn:Hslice; simpl.
        -- pose proof (save_memory_returns env memory_file memory' w') as Hsave.
           destruct (_save_memory env memory_file memory' w') as [r w'']. simpl in Hsave.
           subst r. eauto.
        -- eauto.
        -- destruct answer; discriminate.
      * eauto.
      * destruct answer; discriminate.
    + eauto.
    + destruct response; discriminate.
Qed.




(** ** Conversation memory: persist and load *)

Lemma load_messages_records (env : Env) (M acc : list Message) :
  keeps_strings env ->
  Forall human_or_ai M ->
  load_messages env (map message_record M) acc = (Ok tt, (acc ++ M)%list).
Proof.
  intros Hkeep HM. revert acc.
  induction HM as [ | m M Hm HM IH]; intros acc.
  - simpl. rewrite app_nil_r. reflexivity.
  - destruct m as [cls c]. simpl map. simpl load_messages.
    unfold mbind, M_bind, m_bind, lift, add_message, of_sum, modify.
    destruct Hm as [Hm | Hm]; simpl in Hm; subst cls; simpl;
      rewrite Hkeep; simpl; rewrite IH, <- app_assoc; reflexivity.
Qed.

Lemma getitem_returns_or_raises (env : Env) (v : PyVal) (key : string) :
  PyOps.getitem env v key <> Hang.
Proof. destruct v; simpl; try discriminate. destruct (Py.assoc key d); discriminate. Qed.

Lemma load_messages_returns_or_raises (env : Env) (entries : list PyVal) (acc : list Message) :
  fst (load_messages env entries acc) <> Hang.
Proof.
  revert acc. induction entries as [ | msg rest IH]; intros acc; simpl; [discriminate | ].
  unfold mbind, M_bind, m_bind, lift, add_message, of_sum, modify.
  pose proof (getitem_returns_or_raises env msg "type") as Htype.
  pose proof (getitem_returns_or_raises env msg "content") as Hcontent.
  destruct (PyOps.getitem env msg "type") as [type | e | ]; simpl; [ | discriminate | congruence].
  destruct (PyIter.is_text type "human"); [ | destruct (PyIter.is_text type "ai")].
  - destruct (PyOps.getitem env msg "content") as [c | e | ]; simpl; [ | discriminate | congruence].
    destruct (message_content env c); simpl; [discriminate | apply IH].
  - destruct (PyOps.getitem env msg "content") as [c | e | ]; simpl; [ | discriminate | congruence].
    destruct (message_content env c); simpl; [discriminate | apply IH].
  - simpl. apply IH.
Qed.

Lemma load_memory_returns (env : Env) (memory_file : string) (w : World) (acc : list Message) :
  fst (_load_memory env memory_file w acc) = Ok tt.
Proof.
  unfold _load_memory. destruct (files w !! memory_file) as [data | ]; [ | reflexivity].
  unfold try_except.
  destruct (load_body env memory_file w data acc) as [[[] | e | ] acc'] eqn:Hrun;
    try reflexivity.
  exfalso. revert Hrun. unfold load_body, mbind, M_bind, m_bind, lift.
  destruct (read_error env w memory_file); simpl; [discriminate | ].
  destruct (json_load env data) as [memory_data | e | ] eqn:Hload; simpl; [ | discriminate | ].
  - destruct memory_data; simpl; try discriminate.
    destruct (PyOps.len _) as [n | e | ] eqn:Hlen; simpl; [ | discriminate | ].
    + destruct (bool_decide _); simpl; [ | discriminate].
      destruct (Py.assoc "messages" d) as [messages | ]; simpl; [ | discriminate].
      destruct (PyIter.items messages) as [entries | e | ] eqn:Hitems; simpl;
        [ | discriminate | destruct messages; discriminate].
      intros Hrun. pose proof (load_messages_returns_or_raises env entries acc) as Hno.
      rewrite Hrun in Hno. apply Hno. reflexivity.
    + destruct (Py.assoc "messages" d) as [x | ]; [destruct x | ]; discriminate.
  - destruct data; simpl in Hload; [destruct (json_loads env _) | ]; discriminate.
Qed.

Lemma save_memory_file (env : Env) (memory_file : string) (M : list Message) (w : World) :
  open_error env (snd (_generate_summary env M w)) memory_file = None ->
  exists s,
    snd (_save_memory env memory_file M w)
    = with_file (snd (_generate_summary env M w)) memory_file (JsonDoc (memory_document M s)).
Proof.
  intros Hopen. destruct (save_memory_runs env memory_file M w) as (s & _ & Hrun).
  exists s. rewrite Hrun. cbv zeta. rewrite Hopen. reflexivity.
Qed.

(** What a parsed memory file with a message list loads is what the loop
    makes of the items of the list. *)
Lemma load_parsed (env : Env) (memory_file : string) (w : World) (data : FileData)
    (d : list (string * PyVal)) (messages : PyVal) (entries : list PyVal)
    (acc : list Message) :
  files w !! memory_file = Some data ->
  read_error env w memory_file = None ->
  json_load env data = Ok (VDict d) ->
  Py.assoc "messages" d = Some messages ->
  PyIter.items messages = Ok entries ->
  snd (_load_memory env memory_file w acc) = snd (load_messages env entries acc).
Proof.
  intros Hfile Hread Hload Hmessages Hitems. unfold _load_memory. rewrite Hfile.
  unfold try_except, load_body, mbind, M_bind, m_bind, lift. rewrite Hread, Hload. simpl.
  rewrite Hmessages. simpl.
  assert (Hlen : exists n, PyOps.len messages = Ok n).
  { destruct messages; try discriminate Hitems; eexists; reflexivity. }
  destruct Hlen as [n ->]. rewrite Hitems.
  destruct (load_messages env entries acc) as [[[] | e | ] acc']; reflexivity.
Qed.

Lemma load_document (env : Env) (memory_file : string) (w : World)
    (entries : list PyVal) (others : list (string * PyVal)) (acc : list Message) :
  read_error env w memory_file = None ->
  files w !! memory_file = Some (JsonDoc (VDict (("messages", VList entries) :: others))) ->
  snd (_load_memory env memory_file w acc) = snd (load_messages env entries acc).
Proof.
  intros Hread Hfile.
  apply (load_parsed env memory_file w _ (("messages", VList entries) :: others)
           (VList entries) entries acc Hfile Hread); reflexivity.
Qed.

(** [_load_memory] appends to the memory it is given; start-up gives it
    the empty one. *)
Lemma load_after_save_appends (env : Env) (memory_file : string) (M acc : list Message)
    (w : World) :
  Forall human_or_ai M ->
  keeps_strings env ->
  open_error env (snd (_generate_summary env M w)) memory_file = None ->
  (forall w', read_error env w' memory_file = None) ->
  snd (_load_memory env memory_file (snd (_save_memory env memory_file M w)) acc)
  = (acc ++ M)%list.
Proof.
  intros HM Hkeep Hopen Hread.
  destruct (save_memory_file env memory_file M w Hopen) as [s ->]. unfold memory_document.
  rewrite (load_document env memory_file _ (map message_record M) [("summary", VStr s)] acc).
  - rewrite (load_messages_records env M acc Hkeep HM). reflexivity.
  - apply Hread.
  - unfold with_file. simpl. apply lookup_insert_eq.
Qed.

(** C5. For every memory [M] of human and AI messages, empty, of one
    message or of several: once [_save_memory] has written the file (it
    opens the file when the summary has been generated), an agent started
    on that file has the memory [M]; and an agent started with no memory
    file has the empty memory. *)
Theorem memory_round_trip :
  forall (env : Env) (memory_file : string) (M : list Message) (w : World),
    Forall human_or_ai M ->
    keeps_strings env ->
    open_error env (snd (_generate_summary env M w)) memory_file = None ->
    (forall w', read_error env w' memory_file = None) ->
    startup_memory env memory_file (snd (_save_memory env memory_file M w)) = M
    /\ (forall w0, files w0 !! memory_file = None -> startup_memory env memory_file w0 = []).
Proof.
  intros env memory_file M w HM Hkeep Hopen Hread. split.
  - unfold startup_memory.
    apply (load_after_save_appends env memory_file M [] w HM Hkeep Hopen Hread).
  - intros w0 Hnone. unfold startup_memory, _load_memory. rewrite Hnone. reflexivity.
Qed.

Lemma memory_round_trip_witness :
  Forall human_or_ai sample_memory
  /\ keeps_strings probe_env
  /\ startup_memory probe_env "memory.json"
       (snd (_save_memory probe_env "memory.json" sample_memory empty_world))
     = sample_memory.
Proof.
  assert (HM : Forall human_or_ai sample_memory).
  { unfold sample_memory.
    repeat (constructor; [unfold human_or_ai; simpl; auto | ]). constructor. }
  assert (Hkeep : keeps_strings probe_env) by (intros s; reflexivity).
  split; [exact HM | split; [exact Hkeep | ]].
  apply (memory_round_trip probe_env "memory.json" sample_memory empty_world HM Hkeep).
  - reflexivity.
  - intros w'. reflexivity.
Defined.

(** ** Conversation memory: malformed files *)

(** C6, as stated, fails: a message list whose second entry is malformed
    leaves the first entry's message in memory. *)
Lemma load_keeps_messages_before_malformed_entry :
  startup_memory probe_env "memory.json"
    (with_file empty_world "memory.json" (JsonDoc half_good_document))
  = [mkMessage HumanMessage "hi"]
  /\ startup_memory probe_env "memory.json"
       (with_file empty_world "memory.json" (JsonDoc half_good_document))
     <> [].
Proof.
  assert (H : startup_memory probe_env "memory.json"
                (with_file empty_world "memory.json" (JsonDoc half_good_document))
              = [mkMessage HumanMessage "hi"]) by (vm_compute; reflexivity).
  split; [exact H | rewrite H; discriminate].
Qed.

Example load_unparseable_file :
  startup_memory probe_env "memory.json"
    (with_file empty_world "memory.json" (Text "{not json")) = [].
Proof. vm_compute. reflexivity. Qed.

Example load_skips_unknown_types :
  startup_memory probe_env "memory.json"
    (with_file empty_world "memory.json"
       (JsonDoc (VDict [("messages",
                         VList [VDict [("type", VStr "system"); ("content", VStr "x")];
                                VDict [("type", VStr "ai"); ("content", VStr "y")]])])))
  = [mkMessage AIMessage "y"].
Proof. vm_compute. reflexivity. Qed.

(** One turn of the loop on an entry that is not malformed adds the
    entry's message, if it has one, and goes on. *)
Lemma load_messages_step (env : Env) (msg : PyVal) (rest : list PyVal) (acc : list Message) :
  ~ malformed env msg ->
  load_messages env (msg :: rest) acc
  = load_messages env rest (acc ++ option_list (entry_message env msg))%list.
Proof.
  intros Hwell. simpl load_messages.
  unfold mbind, M_bind, m_bind, lift, add_message, of_sum, modify.
  unfold entry_message, entry_class.
  pose proof (getitem_returns_or_raises env msg "type") as Htype.
  pose proof (getitem_returns_or_raises env msg "content") as Hcontent.
  destruct (PyOps.getitem env msg "type") as [type | e | ] eqn:Ht; [ | | congruence].
  2: { exfalso. apply Hwell. left. eauto. }
  assert (Hneeds : forall cls,
             (if PyIter.is_text type "human" then Some HumanMessage
              else if PyIter.is_text type "ai" then Some AIMessage else None) = Some cls ->
             exists c s, PyOps.getitem env msg "content" = Ok c /\ message_content env c = inr s).
  { intros cls Hcls.
    destruct (PyOps.getitem env msg "content") as [c | e | ] eqn:Hc; [ | | congruence].
    - destruct (message_content env c) as [e | s] eqn:Hm; [ | eauto].
      exfalso. apply Hwell. right. exists cls. unfold entry_class. rewrite Ht.
      split; [exact Hcls | ]. right. eauto.
    - exfalso. apply Hwell. right. exists cls. unfold entry_class. rewrite Ht.
      split; [exact Hcls | ]. left. eauto. }
  destruct (PyIter.is_text type "human"); [ | destruct (PyIter.is_text type "ai")].
  - destruct (Hneeds HumanMessage eq_refl) as (c & s & -> & Hm). simpl. rewrite Hm. reflexivity.
  - destruct (Hneeds AIMessage eq_refl) as (c & s & -> & Hm). simpl. rewrite Hm. reflexivity.
  - simpl. rewrite app_nil_r. reflexivity.
Qed.

(** On a malformed entry the loop raises and the memory stays as it
    is. *)
Lemma load_messages_raises (env : Env) (msg : PyVal) (rest : list PyVal) (acc : list Message) :
  malformed env msg ->
  exists e, load_messages env (msg :: rest) acc = (Raise e, acc).
Proof.
  intros Hbad. simpl load_messages.
  unfold mbind, M_bind, m_bind, lift, add_message, of_sum, modify.
  destruct Hbad as [[e Ht] | (cls & Hcls & Hcontent)].
  - rewrite Ht. eexists. reflexivity.
  - unfold entry_class in Hcls.
    destruct (PyOps.getitem env msg "type") as [type | e | ]; try discriminate Hcls.
    destruct (PyIter.is_text type "human"); [ | destruct (PyIter.is_text type "ai")];
      try discriminate Hcls;
      (destruct Hcontent as [[e Hc] | (c & e & Hc & Hm)]; rewrite Hc; simpl;
       [ | rewrite Hm ]; eexists; reflexivity).
Qed.

Lemma load_messages_well_formed (env : Env) (entries : list PyVal) (acc : list Message) :
  Forall (fun entry => ~ malformed env entry) entries ->
  load_messages env entries acc = (Ok tt, (acc ++ omap (entry_message env) entries)%list).
Proof.
  intros Hwell. revert acc. induction Hwell as [ | msg entries Hmsg Hwell IH]; intros acc.
  - simpl. rewrite app_nil_r. reflexivity.
  - rewrite (load_messages_step env msg entries acc Hmsg), IH, <- app_assoc.
    simpl omap. destruct (entry_message env msg); reflexivity.
Qed.

Lemma load_messages_stops (env : Env) (good : list PyVal) (bad : PyVal) (rest : list PyVal)
    (acc : list Message) :
  Forall (fun entry => ~ malformed env entry) good ->
  malformed env bad ->
  exists e, load_messages env (good ++ bad :: rest) acc
            = (Raise e, (acc ++ omap (entry_message env) good)%list).
Proof.
  intros Hgood Hbad. revert acc. induction Hgood as [ | msg good Hmsg Hgood IH]; intros acc.
  - simpl app. simpl omap. rewrite app_nil_r. apply load_messages_raises. exact Hbad.
  - change ((msg :: good) ++ bad :: rest)%list with (msg :: (good ++ bad :: rest))%list.
    rewrite (load_messages_step env msg _ acc Hmsg).
    destruct (IH (acc ++ option_list (entry_message env msg))%list) as [e He].
    exists e. rewrite He, <- app_assoc.
    simpl omap. destruct (entry_message env msg); reflexivity.
Qed.

(** C6, amended. [_load_memory] never raises.  Started with no memory
    file, or with a file that [json.load] rejects, the agent has the
    empty memory.  An entry of the message list is malformed when its
    type cannot be read, or when its type is human or AI and its content
    cannot be read or is refused by the message class.  The load stops at
    the first malformed entry: the memory then holds the messages of the
    entries before it, in order, entries of other types being passed
    over; and a list without a malformed entry is loaded to its end. *)
Theorem load_memory_fail_safe :
  forall (env : Env) (memory_file : string) (w : World),
    (forall acc, fst (_load_memory env memory_file w acc) = Ok tt)
    /\ (files w !! memory_file = None -> startup_memory env memory_file w = [])
    /\ (forall data e,
          files w !! memory_file = Some data -> json_load env data = Raise e ->
          startup_memory env memory_file w = [])
    /\ (forall data d messages,
          files w !! memory_file = Some data ->
          read_error env w memory_file = None ->
          json_load env data = Ok (VDict d) ->
          Py.assoc "messages" d = Some messages ->
          (forall good bad rest,
             PyIter.items messages = Ok (good ++ bad :: rest)%list ->
             Forall (fun entry => ~ malformed env entry) good ->
             malformed env bad ->
             startup_memory env memory_file w = omap (entry_message env) good)
          /\ (forall entries,
                PyIter.items messages = Ok entries ->
                Forall (fun entry => ~ malformed env entry) entries ->
                startup_memory env memory_file w = omap (entry_message env) entries)).
Proof.
  intros env memory_file w. split; [ | split; [ | split]].
  - intros acc. apply load_memory_returns.
  - intros Hnone. unfold startup_memory, _load_memory. rewrite Hnone. reflexivity.
  - intros data e Hfile Hload. unfold startup_memory, _load_memory. rewrite Hfile.
    unfold try_except, load_body, mbind, M_bind, m_bind, lift.
    destruct (read_error env w memory_file); [reflexivity | ].
    rewrite Hload. reflexivity.
  - intros data d messages Hfile Hread Hload Hmessages. split.
    + intros good bad rest Hitems Hgood Hbad. unfold startup_memory.
      rewrite (load_parsed env memory_file w data d messages _ [] Hfile Hread Hload
                 Hmessages Hitems).
      destruct (load_messages_stops env good bad rest [] Hgood Hbad) as [e ->]. reflexivity.
    + intros entries Hitems Hwell. unfold startup_memory.
      rewrite (load_parsed env memory_file w data d messages _ [] Hfile Hread Hload
                 Hmessages Hitems).
      rewrite (load_messages_well_formed env entries [] Hwell). reflexivity.
Qed.

Lemma stopping_entries_shape :
  Forall (fun entry => ~ malformed probe_env entry) (take 2 stopping_entries)
  /\ malformed probe_env (VDict [("type", VStr "human")]).
Proof.
  split.
  - repeat constructor;
      intros [[e H] | (cls & Hcls & [[e H] | (c & e & H & Hm)])];
      vm_compute in *; try discriminate;
      injection H as <-; discriminate Hm.
  - right. exists HumanMessage. split; [reflexivity | ]. left. eexists. reflexivity.
Qed.

Lemma load_memory_fail_safe_witness :
  Forall (fun entry => ~ malformed probe_env entry) (take 2 stopping_entries)
  /\ malformed probe_env (VDict [("type", VStr "human")])
  /\ startup_memory probe_env "memory.json"
       (with_file empty_world "memory.json"
          (JsonDoc (VDict [("messages", VList stopping_entries)])))
     = [mkMessage HumanMessage "hi"].
Proof.
  destruct stopping_entries_shape as [Hgood Hbad].
  split; [exact Hgood | split; [exact Hbad | ]].
  destruct (load_memory_fail_safe probe_env "memory.json"
              (with_file empty_world "memory.json"
                 (JsonDoc (VDict [("messages", VList stopping_entries)]))))
    as (_ & _ & _ & Hlist).
  assert (Hfile : files (with_file empty_world "memory.json"
                           (JsonDoc (VDict [("messages", VList stopping_entries)])))
                    !! "memory.json"
                  = Some (JsonDoc (VDict [("messages", VList stopping_entries)])))
    by (vm_compute; reflexivity).
  destruct (Hlist (JsonDoc (VDict [("messages", VList stopping_entries)]))
              [("messages", VList stopping_entries)] (VList stopping_entries)
              Hfile eq_refl eq_refl eq_refl)
    as [Hstop _].
  apply (Hstop (take 2 stopping_entries) (VDict [("type", VStr "human")])
           [VDict [("type", VStr "ai"); ("content", VStr "hello")]]);
    [reflexivity | exact Hgood | exact Hbad].
Defined.

(** * Further properties *)

(** ** Message splitter *)

Example split_text_example :
  split_text 20 ("aaaa bbbb" +:+ nl +:+ "cccc dddd eeee") 10
  = Some ["aaaa bbbb" +:+ nl; "cccc dddd"; "eeee"].
Proof. vm_compute. reflexivity. Qed.

Section SplitterFacts.
Context {A : Type} `{EqDecision A} (newline space : A).
Local Open Scope list_scope.

Lemma rfind_lookup (c : A) (chunk : list A) (i : nat) :
  rfind c chunk = Some i -> chunk !! i = Some c.
Proof.
  revert i. induction chunk as [ | x chunk IH]; intros i H; simpl in H; [discriminate | ].
  destruct (rfind c chunk) as [j | ].
  - injection H as <-. simpl. apply IH. reflexivity.
  - destruct (decide (x = c)) as [-> | ]; [ | discriminate].
    injection H as <-. reflexivity.
Qed.

Lemma past_half_spec (last : option nat) (max_length i : nat) :
  past_half last max_length = Some i -> last = Some i /\ max_length < 2 * i.
Proof.
  unfold past_half. destruct last as [j | ]; [ | discriminate].
  destruct (max_length <? 2 * j)%nat eqn:Hlt; [ | discriminate].
  intros [= <-]. apply Nat.ltb_lt in Hlt. auto.
Qed.

(** What one run of the loop yields from position [pos] on. *)
Lemma split_loop_spec (text : list A) (max_length : nat) :
  1 <= max_length ->
  forall fuel pos,
    pos <= length text ->
    length text - pos <= fuel ->
    exists parts,
      split_loop newline space fuel text max_length pos = Some parts
      /\ Forall (fun part => length part <= max_length /\ part <> []) parts
      /\ filter (kept space) (concat parts) = filter (kept space) (drop pos text)
      /\ length (drop pos text) <= length (concat parts) + length parts.
Proof.
  intros Hmax fuel. induction fuel as [ | fuel IH]; intros pos Hpos Hfuel.
  - assert (pos = length text) as -> by lia.
    exists []. simpl. rewrite Nat.ltb_irrefl, drop_all. simpl. auto.
  - simpl. destruct (pos <? length text)%nat eqn:Hlt.
    2: { apply Nat.ltb_ge in Hlt. assert (pos = length text) as -> by lia.
         exists []. rewrite drop_all. simpl. auto. }
    apply Nat.ltb_lt in Hlt.
    set (rest := drop pos text).
    assert (Hrest : length rest = length text - pos) by (unfold rest; apply length_drop).
    destruct (pos + max_length <? length text)%nat eqn:Hmore.
    + apply Nat.ltb_lt in Hmore.
      assert (Hchunk : length (take max_length rest) = max_length)
        by (rewrite length_take; lia).
      destruct (past_half (rfind newline (take max_length rest)) max_length)
        as [i | ] eqn:Hnl.
      * apply past_half_spec in Hnl as [Hfind Hhalf].
        apply rfind_lookup in Hfind.
        assert (Hi : i < max_length).
        { apply lookup_lt_Some in Hfind. lia. }
        simpl. destruct (IH (pos + i + 1)) as (parts & Hrun & Hparts & Hkeep & Hlen);
          [lia | lia | ].
        rewrite Hrun. eexists. split; [reflexivity | ].
        rewrite take_take. replace (min (i + 1) max_length) with (i + 1) by lia.
        assert (Hsplit : rest = take (i + 1) rest ++ drop (pos + i + 1) text).
        { unfold rest. replace (pos + i + 1) with (pos + (i + 1)) by lia.
          rewrite <- drop_drop. symmetry. apply take_drop. }
        split; [ | split].
        -- constructor; [ | exact Hparts]. split.
           ++ rewrite length_take. lia.
           ++ intros Hnil. apply (f_equal length) in Hnil.
              rewrite length_take in Hnil. simpl in Hnil. lia.
        -- simpl. rewrite filter_app, Hkeep, <- filter_app, <- Hsplit. reflexivity.
        -- simpl. rewrite length_app. rewrite Hsplit at 1. rewrite length_app. lia.
      * destruct (past_half (rfind space (take max_length rest)) max_length)
          as [j | ] eqn:Hsp.
        -- apply past_half_spec in Hsp as [Hfind Hhalf].
           apply rfind_lookup in Hfind.
           assert (Hj : j < max_length).
           { apply lookup_lt_Some in Hfind. lia. }
           rewrite lookup_take_lt in Hfind by lia.
           simpl. destruct (IH (pos + j + 1)) as (parts & Hrun & Hparts & Hkeep & Hlen);
             [lia | lia | ].
           rewrite Hrun. eexists. split; [reflexivity | ].
           rewrite take_take. replace (min j max_length) with j by lia.
           assert (Hsplit : rest = take j rest ++ space :: drop (pos + j + 1) text).
           { replace (pos + j + 1) with (pos + S j) by lia.
             rewrite <- drop_drop. symmetry. apply take_drop_middle. exact Hfind. }
           split; [ | split].
           ++ constructor; [ | exact Hparts]. split.
              ** rewrite length_take. lia.
              ** intros Hnil. apply (f_equal length) in Hnil.
                 rewrite length_take in Hnil. simpl in Hnil. lia.
           ++ simpl. rewrite filter_app, Hkeep. rewrite Hsplit at 2.
              rewrite filter_app, filter_cons_False; [reflexivity | ].
              unfold kept. tauto.
           ++ simpl. rewrite length_app. rewrite Hsplit at 1.
              rewrite length_app. simpl. lia.
        -- simpl. destruct (IH (pos + max_length)) as (parts & Hrun & Hparts & Hkeep & Hlen);
             [lia | lia | ].
           rewrite Hrun. eexists. split; [reflexivity | ].
           assert (Hsplit : rest = take max_length rest ++ drop (pos + max_length) text).
           { unfold rest. rewrite <- drop_drop. symmetry. apply take_drop. }
           split; [ | split].
           ++ constructor; [ | exact Hparts]. split; [lia | ].
              intros Hnil. rewrite Hnil in Hchunk. simpl in Hchunk. lia.
           ++ simpl. rewrite filter_app, Hkeep, <- filter_app, <- Hsplit. reflexivity.
           ++ simpl. rewrite length_app. rewrite Hsplit at 1. rewrite length_app. lia.
    + apply Nat.ltb_ge in Hmore. simpl.
      destruct (IH (length text)) as (parts & Hrun & Hparts & Hkeep & Hlen); [lia | lia | ].
      rewrite Hrun. eexists. split; [reflexivity | ].
      rewrite take_ge by lia. rewrite drop_all in Hkeep, Hlen.
      destruct fuel; simpl in Hrun; rewrite Nat.ltb_irrefl in Hrun;
        injection Hrun as <-; simpl; rewrite app_nil_r;
        (split; [ | split; [reflexivity | lia]]);
        (constructor; [ | constructor]); (split; [lia | ]);
        intros Hnil; rewrite Hnil in Hrest; simpl in Hrest; lia.
Qed.

Lemma split_message_spec (text : list A) (max_length fuel : nat) :
  1 <= max_length ->
  length text <= fuel ->
  exists parts,
    split_message newline space fuel text max_length = Some parts
    /\ Forall (fun part => length part <= max_length /\ (text <> [] -> part <> [])) parts
    /\ filter (kept space) (concat parts) = filter (kept space) text
    /\ length text <= length (concat parts) + length parts.
Proof.
  intros Hmax Hfuel. unfold split_message.
  destruct (length text <=? max_length)%nat eqn:Hshort.
  - apply Nat.leb_le in Hshort. exists [text]. simpl. rewrite app_nil_r.
    split; [reflexivity | split; [ | split; [reflexivity | lia]]].
    constructor; [ | constructor]. auto.
  - destruct (split_loop_spec text max_length Hmax fuel 0) as (parts & Hrun & Hparts & Hkeep & Hlen);
      [lia | lia | ].
    exists parts. rewrite drop_0 in Hkeep, Hlen.
    split; [exact Hrun | split; [ | split; [exact Hkeep | exact Hlen]]].
    eapply Forall_impl; [exact Hparts | ]. intros part [Hle Hne]. auto.
Qed.

(** X1. With a limit of at least one character, [split_message] ends
    (a number of iterations equal to the length of the text is enough)
    and no part it returns is longer than the limit. *)
Theorem split_message_parts_within_limit :
  forall (text : list A) (max_length fuel : nat),
    1 <= max_length ->
    length text <= fuel ->
    exists parts,
      split_message newline space fuel text max_length = Some parts
      /\ Forall (fun part => length part <= max_length) parts.
Proof.
  intros text max_length fuel Hmax Hfuel.
  destruct (split_message_spec text max_length fuel Hmax Hfuel) as (parts & Hrun & Hparts & _).
  exists parts. split; [exact Hrun | ].
  eapply Forall_impl; [exact Hparts | ]. intros part [Hle _]. exact Hle.
Qed.

(** X2. With a limit of at least one character, no part of a non-empty
    text is empty. *)
Theorem split_message_parts_not_empty :
  forall (text : list A) (max_length fuel : nat),
    1 <= max_length ->
    length text <= fuel ->
    text <> [] ->
    exists parts,
      split_message newline space fuel text max_length = Some parts
      /\ Forall (fun part => part <> []) parts.
Proof.
  intros text max_length fuel Hmax Hfuel Htext.
  destruct (split_message_spec text max_length fuel Hmax Hfuel) as (parts & Hrun & Hparts & _).
  exists parts. split; [exact Hrun | ].
  eapply Forall_impl; [exact Hparts | ]. intros part [_ Hne]. auto.
Qed.


Lemma split_loop_zero (text : list A) (fuel pos : nat) :
  pos < length text -> split_loop newline space fuel text 0 pos = None.
Proof.
  intros Hpos. induction fuel as [ | fuel IH]; simpl.
  - apply Nat.ltb_lt in Hpos. rewrite Hpos. reflexivity.
  - pose proof Hpos as Hlt. apply Nat.ltb_lt in Hlt. rewrite Hlt.
    replace (pos + 0) with pos by lia. rewrite Hlt. simpl. rewrite IH. reflexivity.
Qed.

(** X4. With the limit 0 and a non-empty text the loop never advances: no
    number of iterations gives a result. *)
Theorem split_message_zero_limit_never_returns :
  forall (text : list A) (fuel : nat),
    text <> [] ->
    split_message newline space fuel text 0 = None.
Proof.
  intros text fuel Htext. unfold split_message.
  destruct text as [ | x text]; [congruence | ]. simpl.
  apply split_loop_zero. simpl. lia.
Qed.

End SplitterFacts.

Lemma split_message_parts_within_limit_witness :
  1 <= 4 /\ length [1; 2; 3; 0; 4; 5; 6; 7; 8] <= 9
  /\ exists parts,
       split_message 9 0 9 [1; 2; 3; 0; 4; 5; 6; 7; 8] 4 = Some parts
       /\ Forall (fun part => length part <= 4) parts.
Proof.
  split; [lia | split; [simpl; lia | ]].
  apply (split_message_parts_within_limit 9 0 [1; 2; 3; 0; 4; 5; 6; 7; 8] 4 9); simpl; lia.
Defined.

Lemma split_message_parts_not_empty_witness :
  1 <= 4 /\ length [1; 2; 3; 0; 4; 5; 6; 7; 8] <= 9
  /\ [1; 2; 3; 0; 4; 5; 6; 7; 8] <> []
  /\ exists parts,
       split_message 9 0 9 [1; 2; 3; 0; 4; 5; 6; 7; 8] 4 = Some parts
       /\ Forall (fun part => part <> []) parts.
Proof.
  split; [lia | split; [simpl; lia | split; [discriminate | ]]].
  apply (split_message_parts_not_empty 9 0 [1; 2; 3; 0; 4; 5; 6; 7; 8] 4 9);
    [simpl; lia | simpl; lia | discriminate].
Defined.


Lemma split_message_zero_limit_never_returns_witness :
  [1; 2; 3] <> [] /\ split_message 9 0 100 [1; 2; 3] 0 = None.
Proof.
  split; [discriminate | ].
  apply (split_message_zero_limit_never_returns 9 0 [1; 2; 3] 100). discriminate.
Defined.

Example split_message_example :
  split_message 9 0 9 [1; 2; 3; 0; 4; 5; 6; 7; 8] 4 = Some [[1; 2; 3]; [4; 5; 6; 7]; [8]]
  /\ split_message 9 0 9 [1; 2; 3; 9; 4; 0; 5; 6; 7] 4 = Some [[1; 2; 3; 9]; [4; 0; 5; 6]; [7]].
Proof. vm_compute. auto. Qed.

(** ** User states *)

(** X5. A state set for a user is the state read back for that user,
    clearing a state (or setting [None]) leaves none, and neither touches
    the state of another user. *)
Theorem user_state_set_get :
  forall (user_states : gmap Z string) (user_id other : Z) (state : string)
         (change : option string),
    get_user_state user_id (set_user_state user_id (Some state) user_states) = Some state
    /\ get_user_state user_id (clear_user_state user_id user_states) = None
    /\ get_user_state user_id (set_user_state user_id None user_states) = None
    /\ (user_id <> other ->
        get_user_state other (set_user_state user_id change user_states)
        = get_user_state other user_states).
Proof.
  intros user_states user_id other state change.
  unfold get_user_state, clear_user_state, set_user_state.
  rewrite lookup_insert_eq, lookup_delete_eq. repeat split.
  intros Hne. destruct change as [s | ].
  - apply lookup_insert_ne. exact Hne.
  - apply lookup_delete_ne. exact Hne.
Qed.

(** ** Tools: what they return and what they touch *)

Lemma ret_not_hang {S A} (a : A) (s : S) : fst (mret (M := M S) a s) <> Hang.
Proof. discriminate. Qed.

Lemma lift_not_hang {S A} (r : Res A) (s : S) : r <> Hang -> fst (@lift S A r s) <> Hang.
Proof. intros H. exact H. Qed.

Lemma of_sum_not_hang {S A} (r : Exn + A) (s : S) : fst (@of_sum S A r s) <> Hang.
Proof. destruct r; discriminate. Qed.

Lemma bind_not_hang {S A B} (m : M S A) (k : A -> M S B) (s : S) :
  fst (m s) <> Hang ->
  (forall a s', fst (k a s') <> Hang) ->
  fst ((m ≫= k) s) <> Hang.
Proof.
  intros Hm Hk. unfold mbind, M_bind, m_bind.
  destruct (m s) as [[a | e | ] s']; simpl in *; [apply Hk | discriminate | congruence].
Qed.

Lemma try_except_returns {S A} (body : M S A) (handler : Exn -> M S A) (s : S) :
  fst (body s) <> Hang ->
  (forall e s', exists a s'', handler e s' = (Ok a, s'')) ->
  exists a s', try_except body handler s = (Ok a, s').
Proof.
  intros Hbody Hhandler. unfold try_except.
  destruct (body s) as [[a | e | ] s']; simpl in *; [eauto | apply Hhandler | congruence].
Qed.

Lemma get_not_hang (v : PyVal) (key : string) (default : PyVal) :
  PyOps.get v key default <> Hang.
Proof. destruct v; discriminate. Qed.

Lemma contains_not_hang (v : PyVal) (key : string) : PyOps.contains v key <> Hang.
Proof. destruct v; discriminate. Qed.

Lemma len_not_hang (v : PyVal) : PyOps.len v <> Hang.
Proof. destruct v; discriminate. Qed.

Lemma keys_not_hang (v : PyVal) : keys v <> Hang.
Proof. destruct v; discriminate. Qed.

Lemma table_get_not_hang (table : list (Z * string)) (v : PyVal) (default : string) :
  table_get table v default <> Hang.
Proof. destruct v; discriminate. Qed.

Lemma raise_for_status_not_hang (r : Response) : raise_for_status r <> Hang.
Proof.
  unfold raise_for_status.
  destruct ((400 <=? status_code r)%Z && (status_code r <? 500)%Z); [discriminate | ].
  destruct ((500 <=? status_code r)%Z && (status_code r <? 600)%Z); discriminate.
Qed.

Lemma format_results_not_hang (env : Env) (results : list PyVal) :
  format_results env results <> Hang.
Proof.
  induction results as [ | r rs IH]; simpl; [discriminate | ].
  unfold format_result, mbind, Res_bind.
  destruct (PyOps.get r "title" _) eqn:H1; [ | discriminate | destruct r; discriminate].
  destruct (PyOps.get r "href" _) eqn:H2; [ | discriminate | destruct r; discriminate].
  destruct (PyOps.get r "body" _) eqn:H3; [ | discriminate | destruct r; discriminate].
  destruct (format_results env rs); [discriminate | discriminate | congruence].
Qed.

Lemma requests_call_bounded (env : Env) (c : HttpCall) (w : World) :
  call_timeout c <> None -> fst (requests_call env c w) <> Hang.
Proof.
  intros Hc. unfold requests_call.
  destruct (server env c); try discriminate.
  destruct (call_timeout c); [discriminate | congruence].
Qed.

Create HintDb returns.
#[local] Hint Resolve get_not_hang contains_not_hang len_not_hang keys_not_hang
  table_get_not_hang raise_for_status_not_hang format_results_not_hang
  getitem_returns_or_raises : returns.

Ltac not_hang :=
  repeat first
    [ apply ret_not_hang
    | apply of_sum_not_hang
    | apply lift_not_hang; solve [auto with returns]
    | apply bind_not_hang; [ | intros ? ? ]
    | match goal with
      | |- fst ((if ?b then _ else _) _) <> Hang => destruct b
      | |- fst ((match ?x with _ => _ end) _) <> Hang => destruct x
      end ].

Lemma bind_same {S A B} (m : M S A) (k : A -> M S B) (s : S) :
  snd (m s) = s ->
  (forall a, snd (k a s) = s) ->
  snd ((m ≫= k) s) = s.
Proof.
  intros Hm Hk. unfold mbind, M_bind, m_bind.
  destruct (m s) as [[a | e | ] s']; simpl in *; subst; [apply Hk | reflexivity | reflexivity].
Qed.

Lemma lift_same {S A} (r : Res A) (s : S) : snd (@lift S A r s) = s.
Proof. reflexivity. Qed.

Lemma of_sum_same {S A} (r : Exn + A) (s : S) : snd (@of_sum S A r s) = s.
Proof. reflexivity. Qed.

Lemma ret_same {S A} (a : A) (s : S) : snd (mret (M := M S) a s) = s.
Proof. reflexivity. Qed.

Ltac same_state :=
  repeat first
    [ apply ret_same
    | apply of_sum_same
    | apply lift_same
    | apply bind_same; [ | intros ? ]
    | match goal with
      | |- snd ((if ?b then _ else _) _) = _ => destruct b
      | |- snd ((match ?x with _ => _ end) _) = _ => destruct x
      end ].

Lemma bind_tail_same {S A B} (m : M S A) (k : A -> M S B) (s : S) :
  (forall a s', snd (k a s') = s') ->
  snd ((m ≫= k) s) = snd (m s).
Proof.
  intros Hk. unfold mbind, M_bind, m_bind.
  destruct (m s) as [[a | e | ] s']; simpl; [apply Hk | reflexivity | reflexivity].
Qed.

Lemma try_except_same_handler {S A} (body : M S A) (handler : Exn -> M S A) (s : S) :
  (forall e s', snd (handler e s') = s') ->
  snd (try_except body handler s) = snd (body s).
Proof.
  intros Hh. unfold try_except.
  destruct (body s) as [[a | e | ] s']; simpl; [reflexivity | apply Hh | reflexivity].
Qed.

Lemma requests_call_world (env : Env) (c : HttpCall) (w : World) :
  snd (requests_call env c w) = log_request c w.
Proof.
  unfold requests_call. destruct (server env c); [reflexivity | reflexivity | ].
  destruct (call_timeout c); reflexivity.
Qed.

Lemma log_services_nil (w : World) : log_services [] w = w.
Proof. unfold log_services. rewrite app_nil_r. destruct w; reflexivity. Qed.

Lemma log_requests_nil (w : World) : log_requests [] w = w.
Proof. unfold log_requests. rewrite app_nil_r. destruct w; reflexivity. Qed.

Lemma log_services_app (a b : list ServiceCall) (w : World) :
  log_services b (log_services a w) = log_services (a ++ b) w.
Proof. unfold log_services. simpl. rewrite app_assoc. reflexivity. Qed.


Example web_search_failure_is_text :
  web_search probe_env [VStr "rocq"] [] empty_world
  = (Ok "Результаты поиска не найдены.", log_service (Search "rocq" 5) empty_world).
Proof. vm_compute. reflexivity. Qed.



(** X9. [execute_terminal] always returns a string and sends no request.
    Either the denylist names a token and nothing is run, or the command
    is handed to the shell exactly once, as it was given (neither
    lowercased nor trimmed). *)
Theorem execute_terminal_returns :
  forall (env : Env) (args : list PyVal) (kwargs : list (string * PyVal)) (w : World),
    let command := _normalize_input env (tool_argument "command" args kwargs) in
    exists s w',
      execute_terminal env args kwargs w = (Ok s, w')
      /\ http_log w' = http_log w
      /\ ((exists d, In d dangerous_commands /\ s = refusal d /\ w' = w)
          \/ (List.find (PyStr.startswith (PyStr.strip (PyStr.lower env command)))
                dangerous_commands = None
              /\ spawned w' = (spawned w ++ [command])%list)).
Proof.
  intros env args kwargs w command. unfold execute_terminal. fold command.
  destruct (List.find _ dangerous_commands) as [d | ] eqn:Hfind.
  - eexists _, _. split; [reflexivity | ]. split; [reflexivity | ].
    left. exists d. apply find_some in Hfind. tauto.
  - unfold try_except, mbind, M_bind, m_bind, subprocess_run.
    destruct (shell env command (files w, directories w)) as [out [fs' dirs']].
    destruct out as [rc stdout stderr | | e]; simpl;
      eexists _, _; (split; [reflexivity | ]); simpl; auto.
Qed.


Lemma bind_lift_ok {S A B} (a : A) (k : A -> M S B) (s : S) :
  (lift (Ok a) ≫= k) s = k a s.
Proof. reflexivity. Qed.

Lemma crypto_argument_raises_only_on_empty_list (env : Env) (x : PyVal) :
  x <> VList [] -> exists s, crypto_argument env x = Ok s.
Proof.
  intros Hx. destruct x as [ | b | z | r | s | l | d]; try (eexists; reflexivity).
  destruct l as [ | a [ | b [ | c l]]]; [congruence | | | ]; eexists; reflexivity.
Qed.

(** X11. Unless its argument is the empty list, [get_crypto_price] never
    raises: it returns a string, or never returns.  It sends exactly one
    request, without a timeout. *)
Theorem get_crypto_price_never_raises :
  forall (env : Env) (args : list PyVal) (kwargs : list (string * PyVal)) (w : World),
    tool_argument "coin_and_currency" args kwargs <> VList [] ->
    exists r w' c,
      get_crypto_price env args kwargs w = (r, w')
      /\ (r = Hang \/ exists s, r = Ok s)
      /\ http_log w' = (http_log w ++ [c])%list
      /\ call_timeout c = None
      /\ files w' = files w /\ spawned w' = spawned w.
Proof.
  intros env args kwargs w Harg. unfold get_crypto_price.
  destruct (crypto_argument_raises_only_on_empty_list env _ Harg) as [s0 Hs0].
  rewrite Hs0, bind_lift_ok.
  match goal with |- context [try_except ?b ?h] => set (body := b); set (handler := h) end.
  assert (Hsame : forall e w1, handler e w1 = (Ok ("Ошибка получения курса: " +:+ exn_text e), w1))
    by reflexivity.
  destruct (try_except body handler w) as [r w'] eqn:Hrun.
  eexists r, w', _. split; [reflexivity | ].
  assert (Hw : w' = snd (try_except body handler w)) by (rewrite Hrun; reflexivity).
  rewrite try_except_same_handler in Hw by (intros; rewrite Hsame; reflexivity).
  unfold body in Hw. cbv zeta in Hw.
  rewrite bind_tail_same in Hw by (intros; same_state).
  rewrite requests_call_world in Hw. subst w'. simpl.
  split; [ | split; [reflexivity | auto]].
  revert Hrun. unfold try_except. destruct (body w) as [[s | e | ] w1]; intros Hrun.
  - injection Hrun as <- _. right. eauto.
  - rewrite Hsame in Hrun. injection Hrun as <- _. right. eauto.
  - injection Hrun as <- _. left. reflexivity.
Qed.

Lemma get_crypto_price_never_raises_witness :
  tool_argument "coin_and_currency" [VStr "bitcoin,eur"] [] <> VList []
  /\ exists r w' c,
       get_crypto_price probe_env [VStr "bitcoin,eur"] [] empty_world = (r, w')
       /\ (r = Hang \/ exists s, r = Ok s)
       /\ http_log w' = (http_log empty_world ++ [c])%list
       /\ call_timeout c = None
       /\ files w' = files empty_world /\ spawned w' = spawned empty_world.
Proof.
  split; [discriminate | ].
  apply (get_crypto_price_never_raises probe_env [VStr "bitcoin,eur"] [] empty_world).
  discriminate.
Defined.

(** The retry loop asks the geocoder once per attempt it makes, and
    makes at least one when there is one to make. *)
Lemma geocode_loop_spec (env : Env) (city : string) (attempts : list nat) :
  forall (w : World) (l : option Location),
  exists r l' looked,
    geocode_loop env city attempts (w, Bound l) = (r, (log_services looked w, Bound l'))
    /\ r <> Hang
    /\ length looked <= length attempts
    /\ (attempts <> [] -> looked <> [])
    /\ Forall (fun c => c = Geocode city 10) looked.
Proof.
  induction attempts as [ | attempt rest IH]; intros w l.
  - exists (Ok tt), l, []. rewrite log_services_nil.
    split; [reflexivity | split; [discriminate | split; [simpl; lia | split; [congruence | constructor]]]].
  - assert (Hone : forall (r : Res unit) (l' : option Location),
               r <> Hang ->
               exists r0 l0 looked,
                 (r, (log_service (Geocode city 10) w, Bound l'))
                 = (r0, (log_services looked w, Bound l0))
                 /\ r0 <> Hang /\ length looked <= length (attempt :: rest)
                 /\ (attempt :: rest <> [] -> looked <> [])
                 /\ Forall (fun c => c = Geocode city 10) looked).
    { intros r l' Hr. exists r, l', [Geocode city 10].
      split; [reflexivity | split; [exact Hr | split; [simpl; lia | split; [discriminate | ]]]].
      constructor; [reflexivity | constructor]. }
    assert (Hmore : forall l1,
               exists r0 l0 looked,
                 geocode_loop env city rest (log_service (Geocode city 10) w, Bound l1)
                 = (r0, (log_services looked w, Bound l0))
                 /\ r0 <> Hang /\ length looked <= length (attempt :: rest)
                 /\ (attempt :: rest <> [] -> looked <> [])
                 /\ Forall (fun c => c = Geocode city 10) looked).
    { intros l1.
      destruct (IH (log_service (Geocode city 10) w) l1)
        as (r0 & l0 & looked & Hrun & Hr0 & Hlen & _ & Hall).
      exists r0, l0, (Geocode city 10 :: looked). rewrite Hrun.
      unfold log_service. rewrite log_services_app.
      split; [reflexivity | split; [exact Hr0 | split; [simpl; lia | split; [discriminate | ]]]].
      constructor; [reflexivity | exact Hall]. }
    cbn [geocode_loop]. unfold mbind, M_bind, m_bind, on_world, geocode_call. simpl.
    destruct (geocode env attempt city) as [loc | | e].
    + apply Hone. discriminate.
    + unfold set_local. simpl. apply Hmore.
    + destruct (attempt =? _)%nat.
      * apply Hone. discriminate.
      * apply Hmore.
Qed.

Lemma weather_body_spec (env : Env) (city : string) (w : World) :
  nominatim_error env = None ->
  exists r l looked sent,
    weather_body env city (w, Unbound)
    = (r, (log_requests sent (log_services looked w), Bound l))
    /\ r <> Hang
    /\ 1 <= length looked <= 3
    /\ Forall (fun c => c = Geocode city 10) looked
    /\ length sent <= 1
    /\ Forall (fun c => call_timeout c = Some 10%Z) sent.
Proof.
  intros Hn. unfold weather_body. rewrite Hn.
  remember (seq 0 max_retries) as attempts eqn:Hattempts.
  assert (Hthree : length attempts = 3) by (subst attempts; reflexivity).
  assert (Hsome_attempt : attempts <> []) by (subst attempts; discriminate).
  clear Hattempts.
  unfold mbind at 1. unfold M_bind, m_bind, lift.
  unfold mbind at 1. unfold M_bind, m_bind, set_local. simpl.
  destruct (geocode_loop_spec env city attempts w None)
    as (r0 & l0 & looked & Hloop & Hr0 & Hlen & Hsome & Hall).
  assert (Hlooked : 1 <= length looked <= 3).
  { split; [ | lia].
    destruct looked; [exfalso; apply (Hsome Hsome_attempt); reflexivity | simpl; lia]. }
  unfold mbind at 1. unfold M_bind, m_bind. rewrite Hloop.
  set (w0 := log_services looked w).
  destruct r0 as [[] | e | ]; [ | | congruence].
  2: { exists (Raise e), l0, looked, []. rewrite log_requests_nil.
       repeat split; auto; try discriminate; try lia; simpl; lia. }
  unfold mbind at 1. unfold M_bind, m_bind, get_local. simpl.
  destruct l0 as [loc | ].
  2: { eexists (Ok _), None, looked, []. rewrite log_requests_nil.
       repeat split; auto; try discriminate; try lia; simpl; lia. }
  match goal with |- context [on_world (requests_call env ?c)] => set (call := c) end.
  match goal with |- context [on_world _ ≫= ?k] => set (tail := k) end.
  assert (Htail : forall response s, snd (tail response s) = s /\ fst (tail response s) <> Hang).
  { intros response s. unfold tail. split; [same_state | not_hang]. }
  unfold mbind, M_bind, m_bind, on_world. simpl.
  pose proof (requests_call_world env call w0) as Hworld.
  pose proof (requests_call_bounded env call w0) as Hbounded.
  destruct (requests_call env call w0) as [[response | e | ] w1]; simpl in *;
    [ | | exfalso; apply Hbounded; [discriminate | reflexivity]].
  - destruct (Htail response (w1, Bound (Some loc))) as [Hs Hh].
    destruct (tail response (w1, Bound (Some loc))) as [r s]. simpl in *. subst s w1.
    exists r, (Some loc), looked, [call].
    repeat split; auto; try lia; try (constructor; [reflexivity | constructor]).
  - subst w1. exists (Raise e), (Some loc), looked, [call].
    repeat split; auto; try discriminate; try lia;
      try (constructor; [reflexivity | constructor]).
Qed.



(** With a geocoder that finds nothing, the three attempts are made and
    no request follows. *)
Example get_weather_three_attempts :
  get_weather probe_env [VStr "Atlantis"] [] empty_world
  = (Ok "Город 'Atlantis' не найден.",
     log_services [Geocode "Atlantis" 10; Geocode "Atlantis" 10; Geocode "Atlantis" 10]
       empty_world).
Proof. vm_compute. reflexivity. Qed.

(** ** [read_file] *)

Lemma open_read_same (env : Env) (nt : bool) (dumps : PyVal -> string) (path : string)
    (w : World) :
  snd (open_read env nt dumps path w) = w /\ fst (open_read env nt dumps path w) <> Hang.
Proof.
  unfold open_read. destruct (files w !! path).
  - destruct (read_error env w path); split; try reflexivity; discriminate.
  - destruct (is_directory w path); [destruct nt | ]; split; try reflexivity; discriminate.
Qed.

Lemma path_exists_file (w : World) (path : string) (data : FileData) :
  path <> EmptyString -> files w !! path = Some data -> path_exists w path = true.
Proof.
  intros Hne Hfile. unfold path_exists. rewrite Hfile.
  destruct path; [congruence | ]. reflexivity.
Qed.




(** X16. On a POSIX host, when neither the path nor the path without its
    leading slashes names a file or a directory, the result is the
    not-found text quoting the path as it was given. *)
Theorem read_file_not_found :
  forall (env : Env) (dumps : PyVal -> string) (path : string) (w : World),
    path_exists w path = false ->
    path_exists w (PyStr.lstrip_of ["/"] path) = false ->
    read_file env false dumps [VStr path] [] w = (Ok (read_not_found path), w).
Proof.
  intros env dumps path w Hno Hno'. unfold read_file. simpl.
  rewrite Hno. simpl.
  destruct (PyStr.startswith path "/") eqn:Hslash.
  - destruct (1 <? PyStr.len path)%nat.
    + rewrite Hno', Hno, Hslash, Hno'. reflexivity.
    + rewrite Hno, Hslash, Hno'. reflexivity.
  - rewrite Hno, Hslash. reflexivity.
Qed.

(** A path that names a directory exists, so it is opened, and the error
    of [open] comes back as text. *)
Lemma read_file_directory (env : Env) (dumps : PyVal -> string) (path : string) (w : World) :
  path <> EmptyString ->
  files w !! path = None ->
  path ∈ directories w ->
  read_file env false dumps [VStr path] [] w
  = (Ok ("Ошибка чтения файла: [Errno 21] Is a directory: " +:+ PyStr.repr env path), w).
Proof.
  intros Hne Hfile Hdir. unfold read_file. simpl.
  assert (His : is_directory w path = true) by (unfold is_directory; apply bool_decide_eq_true_2, Hdir).
  assert (Hex : path_exists w path = true).
  { unfold path_exists. rewrite His, orb_true_r. destruct path; [congruence | reflexivity]. }
  rewrite Hex. simpl.
  destruct (PyStr.startswith path "/"); rewrite Hex; simpl;
    unfold try_except, open_read; rewrite Hfile, His; reflexivity.
Qed.

Example read_file_directory_example :
  read_file probe_env false (Py.repr probe_env) [VStr "notes"] []
    (with_directory empty_world "notes")
  = (Ok "Ошибка чтения файла: [Errno 21] Is a directory: 'notes'",
     with_directory empty_world "notes").
Proof.
  apply (read_file_directory probe_env (Py.repr probe_env) "notes"
           (with_directory empty_world "notes")).
  - discriminate.
  - reflexivity.
  - unfold with_directory. simpl. set_solver.
Qed.

(** ** Writing, then reading *)

Lemma string_rev_app (p q r : string) :
  String.rev_app (String.rev_app p q) r = String.rev_app q (p +:+ r).
Proof.
  revert q r. induction p as [ | a p IH]; intros q r; [reflexivity | ].
  simpl. rewrite IH. reflexivity.
Qed.

Lemma string_rev_rev_app (p : string) : String.rev (String.rev_app p EmptyString) = p.
Proof. unfold String.rev. rewrite string_rev_app. simpl. apply string_app_empty. Qed.

Lemma contains_bar_cons (a : ascii) (s : string) :
  PyStr.contains "|" (String a s) = false ->
  a <> "|"%char /\ PyStr.contains "|" s = false.
Proof.
  change (PyStr.contains "|" (String a s))
    with (String.prefix "|" (String a s) || PyStr.contains "|" s).
  intros H. apply orb_false_iff in H as [Hp Hc]. split; [ | exact Hc].
  intros ->. simpl in Hp. rewrite prefix_empty in Hp. discriminate.
Qed.

Lemma contains_bar_app (p c : string) :
  PyStr.contains "|" (p +:+ String "|" c) = true.
Proof.
  induction p as [ | a p IH].
  - change (EmptyString +:+ String "|" c) with (String "|" c).
    change (PyStr.contains "|" (String "|" c))
      with (String.prefix "|" (String "|" c) || PyStr.contains "|" c).
    replace (String.prefix "|" (String "|" c)) with true; [reflexivity | ].
    simpl. destruct c; reflexivity.
  - change (String a p +:+ String "|" c) with (String a (p +:+ String "|" c)).
    change (PyStr.contains "|" (String a (p +:+ String "|" c)))
      with (String.prefix "|" (String a (p +:+ String "|" c))
            || PyStr.contains "|" (p +:+ String "|" c)).
    rewrite IH. apply orb_true_r.
Qed.

Lemma split1_go_bar (p cur c : string) :
  PyStr.contains "|" p = false ->
  PyStr.split1_go "|" cur (p +:+ String "|" c) = [String.rev (String.rev_app p cur); c].
Proof.
  revert cur. induction p as [ | a p IH]; intros cur Hp.
  - reflexivity.
  - apply contains_bar_cons in Hp as [Ha Hp].
    change (String a p +:+ String "|" c) with (String a (p +:+ String "|" c)).
    simpl. destruct (Ascii.eqb_spec a "|"); [congruence | ].
    apply IH. exact Hp.
Qed.

Lemma split1_bar (p c : string) :
  PyStr.contains "|" p = false ->
  PyStr.split1 "|" (p +:+ String "|" c) = [p; c].
Proof.
  intros Hp. unfold PyStr.split1. rewrite split1_go_bar by exact Hp.
  rewrite string_rev_rev_app. reflexivity.
Qed.



(** A carriage return written is a line feed read. *)
Example carriage_return_read_back :
  PyStr.strip ("  a|b" +:+ PyStr.of_codes [13] +:+ "c  ") = "a|b" +:+ PyStr.of_codes [13] +:+ "c"
  /\ PyStr.universal_newlines (PyStr.strip ("  a|b" +:+ PyStr.of_codes [13] +:+ "c  "))
     = "a|b" +:+ nl +:+ "c".
Proof. split; vm_compute; reflexivity. Qed.



Lemma read_file_not_found_witness :
  path_exists empty_world "/missing.txt" = false
  /\ path_exists empty_world (PyStr.lstrip_of ["/"] "/missing.txt") = false
  /\ read_file probe_env false (Py.repr probe_env) [VStr "/missing.txt"] [] empty_world
     = (Ok (read_not_found "/missing.txt"), empty_world).
Proof.
  split; [vm_compute; reflexivity | split; [vm_compute; reflexivity | ]].
  apply (read_file_not_found probe_env (Py.repr probe_env) "/missing.txt" empty_world);
    vm_compute; reflexivity.
Defined.

(** ** Summary, persistence and loading *)

Lemma last_n_app_exact {A} (n : nat) (older recent : list A) :
  length recent = n -> PyIter.last_n n (older ++ recent)%list = recent.
Proof.
  intros Hlen. unfold PyIter.last_n. rewrite length_app, Hlen.
  replace (length older + n - n) with (length older) by lia.
  apply drop_app_length.
Qed.

Lemma last_n_short {A} (n : nat) (l : list A) :
  length l <= n -> PyIter.last_n n l = l.
Proof.
  intros Hlen. unfold PyIter.last_n.
  replace (length l - n) with 0 by lia. reflexivity.
Qed.

(** X18. The summary depends on the last ten messages only: whatever
    came before them, [_generate_summary] does what it does for the ten
    alone, the chat call it makes included.  For the empty memory it
    gives the fixed text and makes no call, whatever the language model
    would answer. *)
Theorem generate_summary_last_ten :
  forall (env : Env) (older recent : list Message) (w : World),
    length recent = 10 ->
    _generate_summary env (older ++ recent)%list w = _generate_summary env recent w
    /\ _generate_summary env [] w = (Ok "История диалога пуста.", w).
Proof.
  intros env older recent w Hlen. split; [ | reflexivity].
  unfold _generate_summary.
  rewrite (last_n_app_exact 10 older recent Hlen).
  rewrite (last_n_short 10 recent) by lia. reflexivity.
Qed.

Lemma generate_summary_last_ten_witness :
  length (repeat (mkMessage AIMessage "x") 10) = 10
  /\ _generate_summary probe_env
       ([mkMessage HumanMessage "old"] ++ repeat (mkMessage AIMessage "x") 10)%list empty_world
     = _generate_summary probe_env (repeat (mkMessage AIMessage "x") 10) empty_world.
Proof.
  split; [reflexivity | ].
  apply (generate_summary_last_ten probe_env [mkMessage HumanMessage "old"]
           (repeat (mkMessage AIMessage "x") 10) empty_world).
  reflexivity.
Defined.


Lemma load_messages_any_class (env : Env) (M acc : list Message) :
  keeps_strings env ->
  load_messages env (map message_record M) acc = (Ok tt, (acc ++ map as_persisted M)%list).
Proof.
  intros Hkeep. revert acc.
  induction M as [ | m M IH]; intros acc.
  - simpl. rewrite app_nil_r. reflexivity.
  - destruct m as [cls c]. simpl map. simpl load_messages.
    unfold mbind, M_bind, m_bind, lift, add_message, of_sum, modify.
    destruct cls; simpl; rewrite Hkeep; simpl; rewrite IH, <- app_assoc; reflexivity.
Qed.

(** X20. Persisting and loading keeps the order and the content of every
    message, and of its class only whether it was a human message: for
    any memory, when the file can be opened for writing once the summary
    has been generated, the memory loaded at start-up from the file that
    [_save_memory] wrote is the memory with every message that is not
    human turned into an AI message. *)
Theorem memory_round_trip_any_class :
  forall (env : Env) (memory_file : string) (M : list Message) (w : World),
    keeps_strings env ->
    open_error env (snd (_generate_summary env M w)) memory_file = None ->
    (forall w', read_error env w' memory_file = None) ->
    startup_memory env memory_file (snd (_save_memory env memory_file M w))
    = map as_persisted M.
Proof.
  intros env memory_file M w Hkeep Hopen Hread.
  destruct (save_memory_file env memory_file M w Hopen) as [s ->].
  unfold startup_memory, memory_document.
  rewrite (load_document env memory_file _ (map message_record M) [("summary", VStr s)] []).
  - rewrite (load_messages_any_class env M [] Hkeep). reflexivity.
  - apply Hread.
  - unfold with_file. simpl. apply lookup_insert_eq.
Qed.

Lemma memory_round_trip_any_class_witness :
  keeps_strings probe_env
  /\ open_error probe_env
       (snd (_generate_summary probe_env
               [mkMessage SystemMessage "be brief"; mkMessage HumanMessage "hi"] empty_world))
       "memory.json" = None
  /\ startup_memory probe_env "memory.json"
       (snd (_save_memory probe_env "memory.json"
               [mkMessage SystemMessage "be brief"; mkMessage HumanMessage "hi"] empty_world))
     = [mkMessage AIMessage "be brief"; mkMessage HumanMessage "hi"].
Proof.
  assert (Hkeep : keeps_strings probe_env) by (intros s; reflexivity).
  split; [exact Hkeep | split; [reflexivity | ]].
  apply (memory_round_trip_any_class probe_env "memory.json"
           [mkMessage SystemMessage "be brief"; mkMessage HumanMessage "hi"] empty_world Hkeep).
  - reflexivity.
  - intros w'. reflexivity.
Defined.

Lemma load_messages_typed (env : Env) (entries : list (string * string)) (acc : list Message) :
  keeps_strings env ->
  load_messages env (map entry_record entries) acc
  = (Ok tt, (acc ++ omap loaded_of entries)%list).
Proof.
  intros Hkeep. revert acc.
  induction entries as [ | [t c] entries IH]; intros acc.
  - simpl. rewrite app_nil_r. reflexivity.
  - simpl map. simpl load_messages.
    unfold mbind, M_bind, m_bind, lift, add_message, of_sum, modify.
    simpl. unfold loaded_of. simpl fst. simpl snd.
    destruct (String.eqb t "human"); [ | destruct (String.eqb t "ai")]; simpl.
    + rewrite Hkeep. simpl. rewrite IH, <- app_assoc. reflexivity.
    + rewrite Hkeep. simpl. rewrite IH, <- app_assoc. reflexivity.
    + rewrite IH. reflexivity.
Qed.

(** X21. Loading takes the entries in order and skips, without an error,
    every entry whose type is neither [human] nor [ai]: from a file whose
    message list holds entries with a string type and a string content,
    the memory gets exactly the messages of the human and AI entries. *)
Theorem load_memory_skips_other_types :
  forall (env : Env) (memory_file : string) (w : World)
         (entries : list (string * string)) (others : list (string * PyVal)),
    keeps_strings env ->
    read_error env w memory_file = None ->
    files w !! memory_file
    = Some (JsonDoc (VDict (("messages", VList (map entry_record entries)) :: others))) ->
    startup_memory env memory_file w = omap loaded_of entries.
Proof.
  intros env memory_file w entries others Hkeep Hread Hfile. unfold startup_memory.
  rewrite (load_document env memory_file w _ others [] Hread Hfile).
  rewrite (load_messages_typed env entries [] Hkeep). reflexivity.
Qed.

Lemma load_memory_skips_other_types_witness :
  keeps_strings probe_env
  /\ startup_memory probe_env "memory.json"
       (with_file empty_world "memory.json"
          (JsonDoc (VDict [("messages",
                            VList (map entry_record
                                     [("system", "s"); ("human", "q"); ("tool", "t"); ("ai", "a")]))])))
     = [mkMessage HumanMessage "q"; mkMessage AIMessage "a"].
Proof.
  assert (Hkeep : keeps_strings probe_env) by (intros s; reflexivity).
  split; [exact Hkeep | ].
  apply (load_memory_skips_other_types probe_env "memory.json"
           (with_file empty_world "memory.json"
              (JsonDoc (VDict [("messages",
                                VList (map entry_record
                                         [("system", "s"); ("human", "q"); ("tool", "t"); ("ai", "a")]))])))
           [("system", "s"); ("human", "q"); ("tool", "t"); ("ai", "a")] [] Hkeep).
  - reflexivity.
  - vm_compute. reflexivity.
Defined.

(** X22. A parsed memory file that has no [messages] entry, or that is
    not an object at all, loads nothing and raises nothing. *)
Theorem load_memory_without_messages :
  forall (env : Env) (memory_file : string) (w : World) (doc : PyVal),
    files w !! memory_file = Some (JsonDoc doc) ->
    (forall d, doc = VDict d -> Py.assoc "messages" d = None) ->
    _load_memory env memory_file w [] = (Ok tt, []).
Proof.
  intros env memory_file w doc Hfile Hdoc. unfold _load_memory. rewrite Hfile.
  unfold try_except, load_body, mbind, M_bind, m_bind, lift.
  destruct (read_error env w memory_file); [reflexivity | ]. simpl.
  destruct doc as [ | b | z | r | s | l | d]; try reflexivity.
  simpl. rewrite (Hdoc d eq_refl). simpl. reflexivity.
Qed.

Lemma load_memory_without_messages_witness :
  files (with_file empty_world "memory.json" (JsonDoc (VDict [("summary", VStr "s")])))
    !! "memory.json" = Some (JsonDoc (VDict [("summary", VStr "s")]))
  /\ _load_memory probe_env "memory.json"
       (with_file empty_world "memory.json" (JsonDoc (VDict [("summary", VStr "s")]))) []
     = (Ok tt, []).
Proof.
  split; [vm_compute; reflexivity | ].
  apply (load_memory_without_messages probe_env "memory.json"
           (with_file empty_world "memory.json" (JsonDoc (VDict [("summary", VStr "s")])))
           (VDict [("summary", VStr "s")])).
  - vm_compute. reflexivity.
  - intros d [= <-]. reflexivity.
Defined.

(** ** [process]: the path without an exception *)

(** X23. When the executor returns an object, [process] returns its
    [output] entry as it is (the fixed apology when there is none) and
    persists the memory the executor left, provided the output is a string
    or a list; a list is handed to the caller as a list, not as text. *)
Theorem process_returns_output :
  forall (env : Env) (memory_file user_input : string) (a : Agent)
         (d : list (string * PyVal)) (memory' : list Message) (w' : World),
    executor_invoke env user_input (memory a) (world a) = (inr (VDict d), memory', w') ->
    let answer := match Py.assoc "output" d with
                  | Some v => v
                  | None => VStr default_answer
                  end in
    (exists s, answer = VStr s) \/ (exists l, answer = VList l) ->
    process env memory_file user_input a
    = (Ok answer, mkAgent memory' (snd (_save_memory env memory_file memory' w'))).
Proof.
  intros env memory_file user_input a d memory' w' Hrun answer Hshape.
  unfold process, try_except, process_body. rewrite Hrun.
  unfold PyOps.get. fold default_answer. fold answer.
  pose proof (save_memory_returns env memory_file memory' w') as Hsave.
  destruct Hshape as [[s ->] | [l ->]]; simpl;
    destruct (_save_memory env memory_file memory' w') as [r w'']; simpl in *; subst r;
    reflexivity.
Qed.

Lemma process_returns_output_witness :
  let env := with_executor probe_env
               (fun user_input memory w =>
                  (inr (VDict [("input", VStr user_input); ("output", VStr "4")]),
                   (memory ++ [mkMessage HumanMessage user_input; mkMessage AIMessage "4"])%list,
                   w)) in
  fst (process env "memory.json" "What's 2+2" (mkAgent [] empty_world)) = Ok (VStr "4")
  /\ startup_memory env "memory.json"
       (world (snd (process env "memory.json" "What's 2+2" (mkAgent [] empty_world))))
     = [mkMessage HumanMessage "What's 2+2"; mkMessage AIMessage "4"].
Proof.
  intros env.
  rewrite (process_returns_output env "memory.json" "What's 2+2" (mkAgent [] empty_world)
             [("input", VStr "What's 2+2"); ("output", VStr "4")]
             [mkMessage HumanMessage "What's 2+2"; mkMessage AIMessage "4"] empty_world
             eq_refl (or_introl (ex_intro _ "4" eq_refl))).
  split; [reflexivity | vm_compute; reflexivity].
Defined.

(** X24. When the output has no length (a number, a boolean, [None]),
    the log line that measures it raises inside the [try] block: the
    caller gets the classified error text instead of the answer, and the
    memory file is not written. *)
Theorem process_output_without_length :
  forall (env : Env) (memory_file user_input : string) (a : Agent)
         (d : list (string * PyVal)) (answer : PyVal) (e : Exn)
         (memory' : list Message) (w' : World),
    executor_invoke env user_input (memory a) (world a) = (inr (VDict d), memory', w') ->
    Py.assoc "output" d = Some answer ->
    PyOps.len answer = Raise e ->
    process env memory_file user_input a
    = (Ok (VStr (error_message env e)), mkAgent memory' w').
Proof.
  intros env memory_file user_input a d answer e memory' w' Hrun Hout Hlen.
  unfold process, try_except, process_body. rewrite Hrun.
  unfold PyOps.get. rewrite Hout. simpl. rewrite Hlen. reflexivity.
Qed.

Lemma process_output_without_length_witness :
  let env := with_executor probe_env
               (fun user_input memory w => (inr (VDict [("output", VInt 4)]), memory, w)) in
  process env "memory.json" "What's 2+2" (mkAgent [] empty_world)
  = (Ok (VStr (generic_message "object of type 'int' has no len()")), mkAgent [] empty_world).
Proof.
  intros env.
  apply (process_output_without_length env "memory.json" "What's 2+2" (mkAgent [] empty_world)
           [("output", VInt 4)] (VInt 4)
           (mkExn TypeError "object of type 'int' has no len()") [] empty_world);
    reflexivity.
Defined.

(** ** Arguments and metadata *)

Lemma filter_not_dict_idempotent (l : list PyVal) :
  List.filter not_dict (List.filter not_dict l) = List.filter not_dict l.
Proof.
  induction l as [ | x l IH]; [reflexivity | ].
  simpl. destruct (not_dict x) eqn:Hx; [ | exact IH].
  simpl. rewrite Hx, IH. reflexivity.
Qed.

(** X25. As soon as a sequence holds one entry that is not a metadata
    dict, its dicts do not count: [_normalize_input] gives what it gives
    for the sequence without them, wherever they stand and however many
    they are. *)
Theorem normalize_input_ignores_metadata :
  forall (env : Env) (l : list PyVal),
    List.filter not_dict l <> [] ->
    _normalize_input env (VList l) = _normalize_input env (VList (List.filter not_dict l)).
Proof.
  intros env l Hreal. unfold _normalize_input. rewrite filter_not_dict_idempotent.
  destruct (List.filter not_dict l) as [ | x reals] eqn:Hf; [congruence | ].
  simpl length. simpl Nat.eqb. cbv iota.
  destruct reals; reflexivity.
Qed.

Lemma normalize_input_ignores_metadata_witness :
  List.filter not_dict [VDict [("run_id", VStr "r")]; VStr "New"; VDict []; VStr "York"] <> []
  /\ _normalize_input probe_env
       (VList [VDict [("run_id", VStr "r")]; VStr "New"; VDict []; VStr "York"])
     = _normalize_input probe_env
         (VList (List.filter not_dict
                   [VDict [("run_id", VStr "r")]; VStr "New"; VDict []; VStr "York"])).
Proof.
  split; [discriminate | ].
  apply (normalize_input_ignores_metadata probe_env
           [VDict [("run_id", VStr "r")]; VStr "New"; VDict []; VStr "York"]).
  discriminate.
Defined.

(** X26. A tool's argument is its first positional argument that is not a
    dict: dicts among the positional arguments, and all keyword
    arguments, are passed over as soon as there is one. *)
Theorem tool_argument_first_real :
  forall (name : string) (before after : list PyVal) (x : PyVal)
         (kwargs : list (string * PyVal)),
    Forall (fun v => Py.is_dict v = true) before ->
    Py.is_dict x = false ->
    tool_argument name (before ++ x :: after)%list kwargs = x.
Proof.
  intros name before after x kwargs Hbefore Hx.
  unfold tool_argument, _extract_tool_args.
  assert (Hf : List.filter not_dict (before ++ x :: after)%list
               = x :: List.filter not_dict after).
  { induction Hbefore as [ | v before Hv Hbefore IH]; simpl.
    - unfold not_dict at 1. rewrite Hx. reflexivity.
    - unfold not_dict at 1. rewrite Hv. simpl. exact IH. }
  rewrite Hf. reflexivity.
Qed.

Lemma tool_argument_first_real_witness :
  Forall (fun v => Py.is_dict v = true) [VDict [("call_id", VStr "x")]]
  /\ Py.is_dict (VStr "Paris") = false
  /\ tool_argument "city" ([VDict [("call_id", VStr "x")]] ++ VStr "Paris" :: [VStr "Rome"])%list
       [("city", VStr "Oslo")]
     = VStr "Paris".
Proof.
  assert (H : Forall (fun v => Py.is_dict v = true) [VDict [("call_id", VStr "x")]])
    by (constructor; [reflexivity | constructor]).
  split; [exact H | split; [reflexivity | ]].
  apply (tool_argument_first_real "city" [VDict [("call_id", VStr "x")]] [VStr "Rome"]
           (VStr "Paris") [("city", VStr "Oslo")] H).
  reflexivity.
Defined.

(** ** Strings: trimming and splitting *)

Lemma string_rev_app_acc (a c : string) :
  String.rev_app a c = String.rev_app a EmptyString +:+ c.
Proof.
  revert c. induction a as [ | x a IH]; intros c; [reflexivity | ].
  simpl. rewrite (IH (String x c)), (IH (String x EmptyString)).
  rewrite string_app_assoc. reflexivity.
Qed.

Lemma string_rev_append (a b : string) :
  String.rev (a +:+ b) = String.rev b +:+ String.rev a.
Proof.
  unfold String.rev. revert b. induction a as [ | x a IH]; intros b.
  - change (EmptyString +:+ b) with b. simpl. rewrite string_app_empty. reflexivity.
  - change (String x a +:+ b) with (String x (a +:+ b)). simpl.
    rewrite (string_rev_app_acc (a +:+ b)), IH.
    rewrite (string_rev_app_acc a (String x EmptyString)).
    rewrite string_app_assoc. reflexivity.
Qed.

Lemma string_rev_involutive (s : string) : String.rev (String.rev s) = s.
Proof. apply string_rev_rev_app. Qed.

Lemma drop_leading_suffix (pats : list string) (skip : nat) (x : string) :
  exists p, x = p +:+ PyStr.drop_leading pats skip x.
Proof.
  revert skip. induction x as [ | c x IH]; intros skip.
  - exists EmptyString. reflexivity.
  - simpl. destruct skip as [ | k].
    + destruct (find _ pats) as [pat | ].
      * destruct (IH (String.length pat - 1)) as [p Hp].
        exists (String c p). change (String c p +:+ ?t) with (String c (p +:+ t)).
        rewrite <- Hp. reflexivity.
      * exists EmptyString. reflexivity.
    + destruct (IH k) as [p Hp].
      exists (String c p). change (String c p +:+ ?t) with (String c (p +:+ t)).
      rewrite <- Hp. reflexivity.
Qed.

(** Trimming on the right leaves a prefix. *)
Lemma rstrip_prefix (pats : list string) (s : string) :
  exists q, s = PyStr.rstrip_of pats s +:+ q.
Proof.
  unfold PyStr.rstrip_of.
  destruct (drop_leading_suffix (map String.rev pats) 0 (String.rev s)) as [p Hp].
  exists (String.rev p).
  rewrite <- string_rev_append, <- Hp, string_rev_involutive. reflexivity.
Qed.

Lemma prefix_app_r (d r q : string) :
  String.prefix d r = true -> String.prefix d (r +:+ q) = true.
Proof.
  revert r. induction d as [ | x d IH]; intros r H.
  - apply prefix_empty.
  - destruct r as [ | y r]; [discriminate | ].
    change (String y r +:+ q) with (String y (r +:+ q)).
    simpl in *. destruct (ascii_dec x y); [apply IH; exact H | discriminate].
Qed.

(** What [strip()] leaves starts the way the text trimmed on the left
    starts. *)
Lemma startswith_strip (t d : string) :
  PyStr.startswith (PyStr.strip t) d = true ->
  String.prefix d (PyStr.lstrip_of PyStr.whitespace t) = true.
Proof.
  unfold PyStr.startswith, PyStr.strip. intros H.
  destruct (rstrip_prefix PyStr.whitespace (PyStr.lstrip_of PyStr.whitespace t)) as [q Hq].
  rewrite Hq. apply prefix_app_r. exact H.
Qed.

Lemma find_all_false {A} (f : A -> bool) (l : list A) :
  (forall x, In x l -> f x = false) -> List.find f l = None.
Proof.
  induction l as [ | x l IH]; intros H; [reflexivity | ].
  simpl. rewrite (H x (or_introl eq_refl)). apply IH. intros y Hy. apply H. right. exact Hy.
Qed.

(** ** The denylist looks at the start of the command only *)

Lemma sudo_passes_denylist (env : Env) (rest : string) :
  List.find (PyStr.startswith (PyStr.strip (PyStr.lower env ("sudo " +:+ rest))))
    dangerous_commands = None.
Proof.
  apply find_all_false. intros d Hd.
  destruct (PyStr.startswith _ d) eqn:Hstart; [exfalso | reflexivity].
  apply startswith_strip in Hstart.
  assert (Hlow : exists tail, PyStr.lower env ("sudo " +:+ rest) = "sudo " +:+ tail)
    by (eexists; reflexivity).
  destruct Hlow as [tail Hlow]. rewrite Hlow in Hstart.
  assert (Hl : PyStr.lstrip_of PyStr.whitespace ("sudo " +:+ tail) = "sudo " +:+ tail)
    by reflexivity.
  rewrite Hl in Hstart.
  unfold dangerous_commands in Hd. simpl in Hd.
  repeat (destruct Hd as [<- | Hd]; [discriminate Hstart | ]). exact Hd.
Qed.

(** X27. The denylist inspects only how the command starts: any command
    put behind [sudo ], a denylisted one included, passes the check and is
    handed to the shell. *)
Theorem execute_terminal_runs_sudo :
  forall (env : Env) (rest : string) (w : World),
    exists s w',
      execute_terminal env [VStr ("sudo " +:+ rest)] [] w = (Ok s, w')
      /\ spawned w' = (spawned w ++ ["sudo " +:+ rest])%list.
Proof.
  intros env rest w. unfold execute_terminal.
  change (_normalize_input env (tool_argument "command" [VStr ("sudo " +:+ rest)] []))
    with ("sudo " +:+ rest).
  rewrite sudo_passes_denylist.
  unfold try_except, mbind, M_bind, m_bind, subprocess_run.
  destruct (shell env ("sudo " +:+ rest) (files w, directories w)) as [out [fs' dirs']].
  destruct out as [rc stdout stderr | | e]; simpl; eexists _, _; split; reflexivity.
Qed.

Example execute_terminal_sudo_rm :
  spawned (snd (execute_terminal probe_env [VStr "sudo rm -rf /"] [] empty_world))
  = ["sudo rm -rf /"].
Proof. vm_compute. reflexivity. Qed.

(** ** Requests and writes that are refused before any effect *)

Lemma split_go_no_sep (sep : ascii) (cur s : string) :
  PyStr.contains (String sep EmptyString) s = false ->
  PyStr.split_go sep cur s = [String.rev (String.rev_app s cur)].
Proof.
  revert cur. induction s as [ | a s IH]; intros cur Hs; [reflexivity | ].
  change (PyStr.contains (String sep EmptyString) (String a s))
    with (String.prefix (String sep EmptyString) (String a s)
          || PyStr.contains (String sep EmptyString) s) in Hs.
  apply orb_false_iff in Hs as [Hp Hc].
  simpl. destruct (Ascii.eqb_spec a sep) as [-> | Hne].
  - simpl in Hp. destruct (ascii_dec sep sep); [ | congruence].
    rewrite prefix_empty in Hp. discriminate.
  - apply IH. exact Hc.
Qed.

Lemma split_no_sep (sep : ascii) (s : string) :
  PyStr.contains (String sep EmptyString) s = false -> PyStr.split sep s = [s].
Proof.
  intros Hs. unfold PyStr.split. rewrite split_go_no_sep by exact Hs.
  rewrite string_rev_rev_app. reflexivity.
Qed.

(** X28. A request string without a bar has no URL part: [http_request]
    answers with the URL-required text and sends nothing, whatever the
    string is. *)
Theorem http_request_without_url :
  forall (env : Env) (request_str : string) (w : World),
    PyStr.contains "|" request_str = false ->
    http_request env [VStr request_str] [] w
    = (Ok "Ошибка: URL обязателен. Формат: 'method|url|headers_json|data_json'", w).
Proof.
  intros env request_str w Hbar. unfold http_request.
  change (tool_argument "request_str" [VStr request_str] []) with (VStr request_str).
  cbv beta iota zeta. change (Py.str env (VStr request_str)) with request_str.
  rewrite (split_no_sep "|" request_str Hbar). reflexivity.
Qed.

Lemma http_request_without_url_witness :
  PyStr.contains "|" "GET https://example.com" = false
  /\ http_request probe_env [VStr "GET https://example.com"] [] empty_world
     = (Ok "Ошибка: URL обязателен. Формат: 'method|url|headers_json|data_json'", empty_world).
Proof.
  split; [vm_compute; reflexivity | ].
  apply (http_request_without_url probe_env "GET https://example.com" empty_world).
  vm_compute. reflexivity.
Defined.



(** ** Currency pairs that do parse *)

Lemma replace_absent (old new s : string) :
  PyStr.contains old s = false -> PyStr.replace old new s = s.
Proof.
  unfold PyStr.replace. induction s as [ | c s IH]; intros H; [reflexivity | ].
  rewrite contains_cons in H. apply orb_false_iff in H as [Hp Hc].
  cbn [PyStr.replace_go]. rewrite Hp, (IH Hc). reflexivity.
Qed.

(** A needle without a slash that starts a text holding a slash starts
    the part before the slash. *)
Lemma prefix_before_slash (old A B : string) :
  all_letters old = true ->
  String.prefix old (A +:+ String "/" B) = true -> String.prefix old A = true.
Proof.
  revert A. induction old as [ | x old IH]; intros A Hold H.
  - apply prefix_empty.
  - simpl in Hold. apply andb_true_iff in Hold as [Hx Hold].
    destruct A as [ | a A].
    + change (EmptyString +:+ String "/" B) with (String "/" B) in H. simpl in H.
      destruct (ascii_dec x "/") as [-> | ]; [discriminate Hx | discriminate H].
    + change (String a A +:+ String "/" B) with (String a (A +:+ String "/" B)) in H.
      simpl in *. destruct (ascii_dec x a); [ | discriminate H].
      apply (IH A Hold H).
Qed.

Lemma contains_across_slash (old A B : string) :
  old <> EmptyString ->
  all_letters old = true ->
  PyStr.contains old A = false ->
  PyStr.contains old B = false ->
  PyStr.contains old (A +:+ String "/" B) = false.
Proof.
  intros Hne Hold HA HB. induction A as [ | a A IH].
  - change (EmptyString +:+ String "/" B) with (String "/" B).
    rewrite contains_cons, HB, orb_false_r.
    destruct (String.prefix old (String "/" B)) eqn:Hp; [ | reflexivity].
    apply (prefix_before_slash old EmptyString B Hold) in Hp.
    destruct old; [congruence | discriminate Hp].
  - change (String a A +:+ String "/" B) with (String a (A +:+ String "/" B)).
    rewrite contains_cons in *. apply orb_false_iff in HA as [Hp Hc].
    rewrite (IH Hc), orb_false_r.
    destruct (String.prefix old (String a (A +:+ String "/" B))) eqn:Hq; [ | reflexivity].
    apply (prefix_before_slash old (String a A) B Hold) in Hq. congruence.
Qed.

Lemma letters_without (sep : ascii) (s : string) :
  is_letter sep = false ->
  all_letters s = true ->
  PyStr.contains (String sep EmptyString) s = false.
Proof.
  intros Hsep. induction s as [ | a s IH]; intros Hs; [reflexivity | ].
  simpl in Hs. apply andb_true_iff in Hs as [Ha Hs].
  rewrite contains_cons, (IH Hs), orb_false_r. simpl.
  destruct (ascii_dec sep a) as [-> | ]; [congruence | reflexivity].
Qed.

Lemma contains_sep_across_slash (sep : ascii) (A B : string) :
  sep <> "/"%char ->
  PyStr.contains (String sep EmptyString) A = false ->
  PyStr.contains (String sep EmptyString) B = false ->
  PyStr.contains (String sep EmptyString) (A +:+ String "/" B) = false.
Proof.
  intros Hsep HA HB. induction A as [ | a A IH].
  - change (EmptyString +:+ String "/" B) with (String "/" B).
    rewrite contains_cons, HB, orb_false_r. simpl.
    destruct (ascii_dec sep "/"); [congruence | reflexivity].
  - change (String a A +:+ String "/" B) with (String a (A +:+ String "/" B)).
    rewrite contains_cons in *. apply orb_false_iff in HA as [Hp Hc].
    rewrite (IH Hc), orb_false_r. simpl in *.
    destruct (ascii_dec sep a); [ | reflexivity].
    rewrite prefix_empty in Hp. discriminate.
Qed.

Lemma split_go_one_sep (sep : ascii) (p cur c : string) :
  PyStr.contains (String sep EmptyString) p = false ->
  PyStr.split_go sep cur (p +:+ String sep c)
  = String.rev (String.rev_app p cur) :: PyStr.split_go sep EmptyString c.
Proof.
  revert cur. induction p as [ | a p IH]; intros cur Hp.
  - change (EmptyString +:+ String sep c) with (String sep c). simpl.
    rewrite Ascii.eqb_refl. reflexivity.
  - rewrite contains_cons in Hp. apply orb_false_iff in Hp as [Hpre Hc].
    change (String a p +:+ String sep c) with (String a (p +:+ String sep c)).
    simpl. destruct (Ascii.eqb_spec a sep) as [-> | Hne].
    + simpl in Hpre. destruct (ascii_dec sep sep); [ | congruence].
      rewrite prefix_empty in Hpre. discriminate.
    + apply IH. exact Hc.
Qed.

Lemma letter_starts_no_pattern (pats : list string) (a : ascii) (s : string) :
  Forall (fun p => exists c rest, p = String c rest /\ is_letter c = false) pats ->
  is_letter a = true ->
  find (fun p => String.prefix p (String a s)) pats = None.
Proof.
  intros Hpats Ha. apply find_all_false. intros p Hp.
  rewrite Forall_forall in Hpats. destruct (Hpats p) as (c & rest & -> & Hc).
  { apply list_elem_of_In. exact Hp. }
  simpl. destruct (ascii_dec c a) as [-> | ]; [congruence | reflexivity].
Qed.

Lemma whitespace_starts :
  Forall (fun p => exists c rest, p = String c rest /\ is_letter c = false) PyStr.whitespace
  /\ Forall (fun p => exists c rest, p = String c rest /\ is_letter c = false)
       (map String.rev PyStr.whitespace).
Proof.
  split.
  - let l := eval vm_compute in PyStr.whitespace in change PyStr.whitespace with l.
    repeat (constructor; [eexists _, _; split; reflexivity | ]). constructor.
  - let l := eval vm_compute in (map String.rev PyStr.whitespace) in
    change (map String.rev PyStr.whitespace) with l.
    repeat (constructor; [eexists _, _; split; reflexivity | ]). constructor.
Qed.

Lemma all_letters_rev_app (s acc : string) :
  all_letters (String.rev_app s acc) = all_letters s && all_letters acc.
Proof.
  revert acc. induction s as [ | a s IH]; intros acc; [reflexivity | ].
  simpl. rewrite IH. simpl. destruct (is_letter a), (all_letters s); reflexivity.
Qed.

Lemma strip_letters (s : string) :
  s <> EmptyString -> all_letters s = true -> PyStr.strip s = s.
Proof.
  intros Hne Hs. destruct whitespace_starts as [Hws Hrev].
  assert (Hl : PyStr.lstrip_of PyStr.whitespace s = s).
  { unfold PyStr.lstrip_of. destruct s as [ | a s']; [congruence | ].
    simpl in Hs. apply andb_true_iff in Hs as [Ha _].
    cbn [PyStr.drop_leading]. rewrite (letter_starts_no_pattern _ a s' Hws Ha). reflexivity. }
  unfold PyStr.strip. rewrite Hl. unfold PyStr.rstrip_of.
  assert (Hr : all_letters (String.rev s) = true).
  { unfold String.rev. rewrite all_letters_rev_app, Hs. reflexivity. }
  destruct (String.rev s) as [ | b t] eqn:Hrv.
  - apply (f_equal String.rev) in Hrv. rewrite string_rev_involutive in Hrv.
    exfalso. apply Hne. exact Hrv.
  - simpl in Hr. apply andb_true_iff in Hr as [Hb _].
    cbn [PyStr.drop_leading]. rewrite (letter_starts_no_pattern _ b t Hrev Hb).
    rewrite <- Hrv. apply string_rev_involutive.
Qed.

(** X30. The slash spelling and the single code do parse: for currency
    codes made of letters, not holding the word [to] in either case, the
    pair [A/B] gives base [A] and target [B] in capitals, and a single
    code [B] gives base [USD] and target [B]. *)
Theorem parse_currency_pair_slash :
  forall (env : Env) (A B : string),
    currency_code A ->
    currency_code B ->
    parse_currency_pair env (A +:+ String "/" B) = (PyStr.upper env A, PyStr.upper env B)
    /\ parse_currency_pair env B = ("USD", PyStr.upper env B).
Proof.
  intros env A B (HAne & HA & HAto & HATO) (HBne & HB & HBto & HBTO).
  assert (Hsl : forall s, all_letters s = true -> PyStr.contains "/" s = false)
    by (intros s; apply letters_without; reflexivity).
  assert (Hsp : forall s, all_letters s = true -> PyStr.contains " " s = false)
    by (intros s; apply letters_without; reflexivity).
  split.
  - unfold parse_currency_pair.
    rewrite (replace_absent "to") by (apply contains_across_slash; auto; discriminate).
    rewrite (replace_absent "TO") by (apply contains_across_slash; auto; discriminate).
    rewrite (replace_absent " ") by (apply contains_sep_across_slash; auto; discriminate).
    unfold PyStr.split. rewrite split_go_one_sep by auto.
    rewrite string_rev_rev_app.
    change (PyStr.split_go "/" EmptyString B) with (PyStr.split "/" B).
    rewrite split_no_sep by auto. simpl.
    rewrite (strip_letters A HAne HA), (strip_letters B HBne HB). reflexivity.
  - unfold parse_currency_pair.
    rewrite (replace_absent "to"), (replace_absent "TO"), (replace_absent " ") by auto.
    rewrite split_no_sep by auto. simpl.
    rewrite (strip_letters B HBne HB). reflexivity.
Qed.

Lemma parse_currency_pair_slash_witness :
  currency_code "eur" /\ currency_code "RUB"
  /\ parse_currency_pair probe_env ("eur" +:+ String "/" "RUB")
     = (PyStr.upper probe_env "eur", PyStr.upper probe_env "RUB")
  /\ parse_currency_pair probe_env "RUB" = ("USD", PyStr.upper probe_env "RUB").
Proof.
  assert (HA : currency_code "eur").
  { split; [discriminate | split; [reflexivity | split; vm_compute; reflexivity]]. }
  assert (HB : currency_code "RUB").
  { split; [discriminate | split; [reflexivity | split; vm_compute; reflexivity]]. }
  split; [exact HA | split; [exact HB | ]].
  apply (parse_currency_pair_slash probe_env "eur" "RUB" HA HB).
Defined.
